(** * Commerce Control Tower: the in-memory store ([internal/store/store.go])

    A shallow embedding of [MemoryStore] and its operations ([NewMemoryStore],
    [AddItem], [ViewCart], [Checkout], [GenerateDiscount], [Stats]) with the
    properties of carts, the order ledger and the discount life cycle.

    Conventions.
    - Go's [int] is the 64-bit signed integer of the targets the server is
      built for: a [Z] whose additions wrap ([GoInt.add]).
    - Go's [float64] is the kernel's binary64 [float]; every operation is
      rounded on its own (no fused multiply-add).
    - The store's mutex makes every public operation atomic, so an
      operation is a function from the store before to the store after.
    - What an operation reads from outside the store (the iteration order
      of a Go map, the wall clock, [math/rand]) comes from an [Env]. *)

From Stdlib Require Import ZArith PrimFloat SpecFloat FloatOps.
From stdpp Require Import gmap strings list fin_maps pretty.

Local Open Scope Z_scope.

(** ** Machine integers *)

Module GoInt.

Definition min_int : Z := - 2 ^ 63.
Definition max_int : Z := 2 ^ 63 - 1.

Definition in_range (z : Z) : Prop := min_int <= z <= max_int.

(** Two's complement wrap-around into [min_int .. max_int]. *)
Definition wrap (z : Z) : Z := (z + 2 ^ 63) mod 2 ^ 64 - 2 ^ 63.

(** [x + y] and [x += y] on [int]. *)
Definition add (x y : Z) : Z := wrap (x + y).

(** The sum of a sequence of ints accumulated with [+=], from [x0]. *)
Definition sum_from (x0 : Z) (xs : list Z) : Z := fold_left add xs x0.

(** The same sum in unbounded arithmetic. *)
Definition Zsum (xs : list Z) : Z := fold_right Z.add 0 xs.

End GoInt.

(** ** Floating point *)

Module F64.

Definition zero : float := 0%float.

(** [float64(q)] for an int [q]: the nearest binary64, ties to even. *)
Definition of_int (q : Z) : float :=
  SF2Prim (binary_normalize prec emax q 0 false).

End F64.

Infix "⊕" := PrimFloat.add (at level 50, left associativity).
Infix "⊖" := PrimFloat.sub (at level 50, left associativity).
Infix "⊗" := PrimFloat.mul (at level 40, left associativity).
Infix "⊘" := PrimFloat.div (at level 40, left associativity).

(** ** Time *)

(** A [time.Time]: the zero value, or an instant read off the clock, kept
    as its [UnixNano]. *)
Inductive Time : Type :=
  | TimeZero
  | TimeAt (unixNano : Z).

(** ** Data model *)

Module CartItem.
Record t : Type := mk {
  SKU : string;
  Name : string;
  Price : float;
  Quantity : Z;
}.
End CartItem.

Module Cart.
Record t : Type := mk {
  Items : gmap string CartItem.t;
}.
End Cart.

Module Order.
Record t : Type := mk {
  ID : string;
  UserID : string;
  Items : list CartItem.t;
  TotalAmount : float;
  DiscountCode : string;
  DiscountValue : float;
  CreatedAt : Time;
}.
End Order.

Module DiscountCode.
Record t : Type := mk {
  Code : string;
  Percentage : float;
  GeneratedAt : Time;
  RedeemedAt : Time;
  IsRedeemed : bool;
  EligibleOrderNum : Z;
}.
End DiscountCode.

Module Stats.
Record t : Type := mk {
  TotalOrders : Z;
  TotalItemsSold : Z;
  GrossRevenue : float;
  TotalDiscountGiven : float;
  DiscountCodes : list DiscountCode.t;
  ActiveDiscount : option DiscountCode.t;
}.
End Stats.

(** [MemoryStore] without its mutex. [carts] maps a user to the cart its
    pointer owns; no two users share a cart. *)
Record MemoryStore : Type := mkStore {
  carts : gmap string Cart.t;
  orders : list Order.t;
  discountHistory : list DiscountCode.t;
  activeDiscount : option DiscountCode.t;
  nthOrderThreshold : Z;
  nextEligibleOrder : Z;
  totalItemsSold : Z;
  grossRevenue : float;
  totalDiscount : float;
}.

Inductive StoreError : Type :=
  | ErrCartEmpty
  | ErrDiscountNotActive
  | ErrDiscountAlreadyUsed
  | ErrDiscountMismatch
  | ErrDiscountNotEligible.

(** A Go [(T, error)] result: the error is either nil, with a value, or
    set, with the zero value that callers drop. *)
Inductive result (A : Type) : Type :=
  | Ok (a : A)
  | Err (e : StoreError).
Arguments Ok {A} a.
Arguments Err {A} e.

Definition is_ok {A} (r : result A) : bool :=
  match r with Ok _ => true | Err _ => false end.

(** ** The environment of one call *)

Record Env : Type := mkEnv {
  (** the order in which [range] visits the entries of a cart's map *)
  range_items : gmap string CartItem.t → list (string * CartItem.t);
  (** the [k]-th reading of [time.Now().UnixNano()] during the call *)
  clock : nat → Z;
  (** the [k]-th result of [rand.Intn(n)] during the call *)
  intn : nat → Z → nat;
}.

(** [range] visits every entry of the map exactly once, in some order, and
    [rand.Intn(n)] is below [n]. *)
Record Env_ok (env : Env) : Prop := mkEnv_ok {
  range_items_perm : ∀ m, range_items env m ≡ₚ map_to_list m;
  intn_bound : ∀ k n, 0 < n → (Z.of_nat (intn env k n) < n)%Z;
}.

(** An environment that visits maps in [map_to_list] order, reads the
    given instant and draws the given index each time. *)
Definition fixed_env (nanos : Z) (draw : nat) : Env :=
  mkEnv map_to_list (λ k, nanos + Z.of_nat k) (λ _ _, draw).

(** ** Field updates *)

Definition with_carts (c : gmap string Cart.t) (s : MemoryStore) : MemoryStore :=
  mkStore c (orders s) (discountHistory s) (activeDiscount s)
    (nthOrderThreshold s) (nextEligibleOrder s) (totalItemsSold s)
    (grossRevenue s) (totalDiscount s).

Definition with_totalItemsSold (n : Z) (s : MemoryStore) : MemoryStore :=
  mkStore (carts s) (orders s) (discountHistory s) (activeDiscount s)
    (nthOrderThreshold s) (nextEligibleOrder s) n
    (grossRevenue s) (totalDiscount s).

Definition with_activeDiscount (d : option DiscountCode.t) (s : MemoryStore) : MemoryStore :=
  mkStore (carts s) (orders s) (discountHistory s) d
    (nthOrderThreshold s) (nextEligibleOrder s) (totalItemsSold s)
    (grossRevenue s) (totalDiscount s).

(** ** Operations *)

Definition NewMemoryStore (nthOrder : Z) : MemoryStore :=
  let nthOrder := if nthOrder <=? 0 then 5 else nthOrder in
  mkStore ∅ [] [] None nthOrder nthOrder 0 F64.zero F64.zero.

Definition empty_cart : Cart.t := Cart.mk ∅.

Definition getOrCreateCart (userID : string) (s : MemoryStore) : Cart.t * MemoryStore :=
  match carts s !! userID with
  | Some cart => (cart, s)
  | None => (empty_cart, with_carts (<[userID := empty_cart]> (carts s)) s)
  end.

(** The cart is reached through its pointer, so the assignment into
    [cart.Items] is seen by the store. *)
Definition AddItem (userID : string) (item : CartItem.t) (s : MemoryStore)
  : Cart.t * MemoryStore :=
  let '(cart, s) := getOrCreateCart userID s in
  let items :=
    match Cart.Items cart !! CartItem.SKU item with
    | Some existing =>
        let existing :=
          CartItem.mk (CartItem.SKU existing) (CartItem.Name item)
            (CartItem.Price item)
            (GoInt.add (CartItem.Quantity existing) (CartItem.Quantity item)) in
        <[CartItem.SKU item := existing]> (Cart.Items cart)
    | None => <[CartItem.SKU item := item]> (Cart.Items cart)
    end in
  let cart := Cart.mk items in
  (cart, with_carts (<[userID := cart]> (carts s)) s).

Definition ViewCart (userID : string) (s : MemoryStore) : Cart.t * MemoryStore :=
  getOrCreateCart userID s.

(** One iteration of the loop over [cart.Items] in [Checkout]. *)
Definition checkout_visit (acc : list CartItem.t * float * Z)
    (entry : string * CartItem.t) : list CartItem.t * float * Z :=
  let '(items, gross, sold) := acc in
  let item := entry.2 in
  (items ++ [item],
   gross ⊕ F64.of_int (CartItem.Quantity item) ⊗ CartItem.Price item,
   GoInt.add sold (CartItem.Quantity item)).

Definition generateOrderID (env : Env) (k : nat) : string :=
  "ord_" +:+ pretty (clock env k).

(** The tail of [Checkout], from the construction of the order on; [k] is
    the number of clock readings made so far. *)
Definition checkout_record (env : Env) (k : nat) (userID : string)
    (items : list CartItem.t) (gross discountApplied : float)
    (codeUsed : string) (s : MemoryStore) : result Order.t * MemoryStore :=
  let order :=
    Order.mk (generateOrderID env k) userID items (gross ⊖ discountApplied)
      codeUsed discountApplied (TimeAt (clock env (S k))) in
  (Ok order,
   mkStore (<[userID := empty_cart]> (carts s)) (orders s ++ [order])
     (discountHistory s) (activeDiscount s) (nthOrderThreshold s)
     (nextEligibleOrder s) (totalItemsSold s) (grossRevenue s ⊕ gross)
     (totalDiscount s)).

Definition Checkout (env : Env) (userID discountCode : string) (s : MemoryStore)
  : result Order.t * MemoryStore :=
  let '(cart, s) := getOrCreateCart userID s in
  if decide (size (Cart.Items cart) = 0%nat) then (Err ErrCartEmpty, s) else
  let '(items, gross, sold) :=
    fold_left checkout_visit (range_items env (Cart.Items cart))
      ([], F64.zero, totalItemsSold s) in
  let s := with_totalItemsSold sold s in
  if String.eqb discountCode "" then
    checkout_record env 0 userID items gross F64.zero "" s
  else
    match activeDiscount s with
    | None => (Err ErrDiscountNotActive, s)
    | Some active =>
        if DiscountCode.IsRedeemed active then (Err ErrDiscountAlreadyUsed, s)
        else if negb (String.eqb (DiscountCode.Code active) discountCode)
        then (Err ErrDiscountMismatch, s)
        else
          let discountApplied :=
            gross ⊗ (DiscountCode.Percentage active ⊘ 100%float) in
          let redeemed :=
            DiscountCode.mk (DiscountCode.Code active)
              (DiscountCode.Percentage active)
              (DiscountCode.GeneratedAt active) (TimeAt (clock env 0)) true
              (DiscountCode.EligibleOrderNum active) in
          let s :=
            mkStore (carts s) (orders s) (discountHistory s ++ [redeemed]) None
              (nthOrderThreshold s)
              (GoInt.add (nextEligibleOrder s) (nthOrderThreshold s))
              (totalItemsSold s) (grossRevenue s)
              (totalDiscount s ⊕ discountApplied) in
          checkout_record env 1 userID items gross discountApplied
            (DiscountCode.Code redeemed) s
    end.

Definition letters : string := "ABCDEFGHJKLMNPQRSTUVWXYZ23456789".

(** [letters[i]]; the index is a result of [rand.Intn(len(letters))], so
    it is never out of range. *)
Definition letter_at (i : nat) : Ascii.ascii :=
  match String.get i letters with
  | Some c => c
  | None => Ascii.Ascii true false false false false false true false
  end.

Definition generateDiscountCode (env : Env) : string :=
  "DISC-" +:+
  String.string_of_list_ascii
    (map (λ k, letter_at (intn env k (Z.of_nat (String.length letters)))) (seq 0 6)).

Definition GenerateDiscount (env : Env) (s : MemoryStore)
  : result DiscountCode.t * MemoryStore :=
  let totalOrders := Z.of_nat (length (orders s)) in
  let eligible := totalOrders >=? nextEligibleOrder s in
  if negb eligible ||
     match activeDiscount s with
     | Some active => negb (DiscountCode.IsRedeemed active)
     | None => false
     end
  then (Err ErrDiscountNotEligible, s)
  else
    let code :=
      DiscountCode.mk (generateDiscountCode env) 10%float (TimeAt (clock env 0))
        TimeZero false (nextEligibleOrder s) in
    (Ok code, with_activeDiscount (Some code) s).

Definition Stats (s : MemoryStore) : Stats.t :=
  let history :=
    discountHistory s ++
    match activeDiscount s with Some active => [active] | None => [] end in
  Stats.mk (Z.of_nat (length (orders s))) (totalItemsSold s) (grossRevenue s)
    (totalDiscount s) history (activeDiscount s).


(** ** Sequences of operations *)

Inductive Op : Type :=
  | OpAddItem (userID : string) (item : CartItem.t)
  | OpViewCart (userID : string)
  | OpCheckout (env : Env) (userID discountCode : string)
  | OpGenerateDiscount (env : Env)
  | OpStats.

(** The store after one call. *)
Definition apply_op (op : Op) (s : MemoryStore) : MemoryStore :=
  match op with
  | OpAddItem userID item => (AddItem userID item s).2
  | OpViewCart userID => (ViewCart userID s).2
  | OpCheckout env userID discountCode => (Checkout env userID discountCode s).2
  | OpGenerateDiscount env => (GenerateDiscount env s).2
  | OpStats => s
  end.

Definition run (ops : list Op) (s : MemoryStore) : MemoryStore :=
  fold_left (λ s op, apply_op op s) ops s.

(** The stores a server can be in: built by [NewMemoryStore] from an int
    and changed by calls only. *)
Inductive reachable : MemoryStore → Prop :=
  | reachable_new nthOrder :
      GoInt.in_range nthOrder → reachable (NewMemoryStore nthOrder)
  | reachable_step op s :
      reachable s → reachable (apply_op op s).

(** ** Derived views *)

(** The cart a [ViewCart] would show for the user. *)
Definition cart_of (s : MemoryStore) (userID : string) : Cart.t :=
  default empty_cart (carts s !! userID).

(** The line of the user's cart for a sku, if any. *)
Definition cart_entry (s : MemoryStore) (userID sku : string) : option CartItem.t :=
  Cart.Items (cart_of s userID) !! sku.

(** One step of the gross amount's accumulation in [Checkout]:
    [gross += float64(item.Quantity) * item.Price]. *)
Definition visit_gross (gross : float) (item : CartItem.t) : float :=
  gross ⊕ F64.of_int (CartItem.Quantity item) ⊗ CartItem.Price item.

(** Gross amount of a sequence of items, accumulated from zero in the
    order of the sequence. *)
Definition gross_of (items : list CartItem.t) : float :=
  fold_left visit_gross items F64.zero.

(** The number of items sold according to the ledger: the quantities of
    all items of all recorded orders, added up. *)
Definition ledger_itemsSold (os : list Order.t) : Z :=
  GoInt.Zsum (map (λ o, GoInt.Zsum (map CartItem.Quantity (Order.Items o))) os).

(** No code is waiting to be redeemed. *)
Definition no_active_unredeemed (s : MemoryStore) : Prop :=
  ∀ active, activeDiscount s = Some active → DiscountCode.IsRedeemed active = true.

(** The redemption branch of [Checkout]: the store after the active code
    is marked redeemed, moved to the history and the next eligible order
    count is advanced. *)
Definition redeem_update (env : Env) (active : DiscountCode.t)
    (discountApplied : float) (s : MemoryStore) : MemoryStore :=
  mkStore (carts s) (orders s)
    (discountHistory s ++
       [DiscountCode.mk (DiscountCode.Code active) (DiscountCode.Percentage active)
          (DiscountCode.GeneratedAt active) (TimeAt (clock env 0)) true
          (DiscountCode.EligibleOrderNum active)])
    None (nthOrderThreshold s)
    (GoInt.add (nextEligibleOrder s) (nthOrderThreshold s))
    (totalItemsSold s) (grossRevenue s) (totalDiscount s ⊕ discountApplied).


(** The call redeems a discount code on the store: it is a checkout with
    a code that succeeds. *)
Definition redeems (op : Op) (s : MemoryStore) : Prop :=
  ∃ env userID discountCode o s',
    op = OpCheckout env userID discountCode ∧ discountCode ≠ "" ∧
    Checkout env userID discountCode s = (Ok o, s').

(** The ledger is shorter than 2^62 orders, as any slice of orders in a
    64-bit address space is. *)
Definition ledger_fits (s : MemoryStore) : Prop :=
  Z.of_nat (length (orders s)) < 2 ^ 62.

(** What holds of the discount state of every store whose ledger fits:
    the threshold is positive, the next eligible order count is at least
    the threshold, an active code is unredeemed and was generated when the
    ledger had reached the count, and without an active code the count is
    at most one threshold ahead of the ledger. *)
Record discount_inv (s : MemoryStore) : Prop := mk_discount_inv {
  inv_threshold_pos : 1 <= nthOrderThreshold s;
  inv_threshold_le : nthOrderThreshold s <= nextEligibleOrder s;
  inv_active :
    match activeDiscount s with
    | Some active =>
        DiscountCode.IsRedeemed active = false ∧
        nextEligibleOrder s <= Z.of_nat (length (orders s))
    | None =>
        nextEligibleOrder s <= Z.of_nat (length (orders s)) + nthOrderThreshold s
    end;
}.

(** The call does not put the given string into the active slot. *)
Definition generates_other (discountCode : string) (op : Op) : Prop :=
  match op with
  | OpGenerateDiscount env => generateDiscountCode env ≠ discountCode
  | _ => True
  end.

(** The active slot holds no redeemed code and no code with the given
    string. *)
Definition slot_other (discountCode : string) (s : MemoryStore) : Prop :=
  ∀ active, activeDiscount s = Some active →
    DiscountCode.IsRedeemed active = false ∧
    DiscountCode.Code active ≠ discountCode.

(** ** Re-deriving the aggregates from the ledger *)

(** The gross revenue according to the ledger: the gross amounts of the
    recorded orders, accumulated in ledger order as [Checkout] does with
    [s.grossRevenue += gross]. *)
Definition ledger_gross (os : list Order.t) : float :=
  fold_left (λ acc o, acc ⊕ gross_of (Order.Items o)) os F64.zero.

(** The discount given according to the ledger: the discount values of
    the orders that carry a code, accumulated in ledger order. *)
Definition ledger_discount (os : list Order.t) : float :=
  fold_left
    (λ acc o,
       if String.eqb (Order.DiscountCode o) "" then acc
       else acc ⊕ Order.DiscountValue o)
    os F64.zero.

(** The code strings the orders of the ledger were discounted with, in
    ledger order. *)
Definition ledger_codes (os : list Order.t) : list string :=
  filter (λ code, code ≠ "") (Order.DiscountCode <$> os).

(** What [Checkout] makes of every order it records. *)
Definition order_wf (o : Order.t) : Prop :=
  Order.TotalAmount o = gross_of (Order.Items o) ⊖ Order.DiscountValue o ∧
  Order.DiscountValue o =
    (if String.eqb (Order.DiscountCode o) "" then F64.zero
     else gross_of (Order.Items o) ⊗ (10%float ⊘ 100%float)).

(** What [Checkout] makes of every code it moves to the history. *)
Definition redeemed_wf (d : DiscountCode.t) : Prop :=
  DiscountCode.IsRedeemed d = true ∧
  DiscountCode.RedeemedAt d ≠ TimeZero ∧
  DiscountCode.Percentage d = 10%float ∧
  DiscountCode.Code d ≠ "".

(** What [GenerateDiscount] makes of the code it puts in the active slot. *)
Definition active_wf (s : MemoryStore) (d : DiscountCode.t) : Prop :=
  DiscountCode.IsRedeemed d = false ∧
  DiscountCode.RedeemedAt d = TimeZero ∧
  DiscountCode.Percentage d = 10%float ∧
  DiscountCode.Code d ≠ "" ∧
  DiscountCode.EligibleOrderNum d = nextEligibleOrder s.

(** The invariant of the store's books. *)
Record books_inv (s : MemoryStore) : Prop := mk_books_inv {
  inv_keys :
    ∀ userID sku line,
      Cart.Items (cart_of s userID) !! sku = Some line → CartItem.SKU line = sku;
  inv_gross : grossRevenue s = ledger_gross (orders s);
  inv_discount : totalDiscount s = ledger_discount (orders s);
  inv_orders : Forall order_wf (orders s);
  inv_history : Forall redeemed_wf (discountHistory s);
  inv_codes : DiscountCode.Code <$> discountHistory s = ledger_codes (orders s);
  inv_slot : ∀ active, activeDiscount s = Some active → active_wf s active;
}.

(** Calls that neither generate a code nor supply one. *)
Definition quiet (op : Op) : Prop :=
  match op with
  | OpGenerateDiscount _ => False
  | OpCheckout _ _ discountCode => discountCode = ""
  | _ => True
  end.

(** ** The HTTP handlers ([internal/http/server.go])

    A handler gets what the router and the JSON decoder hand it (the
    [userID] of the URL, the decoded request) and the store, and leaves a
    status code with a payload to encode. *)

Module HTTP.

Definition StatusOK : Z := 200.
Definition StatusCreated : Z := 201.
Definition StatusBadRequest : Z := 400.
Definition StatusConflict : Z := 409.
Definition StatusUnprocessableEntity : Z := 422.
Definition StatusInternalServerError : Z := 500.

(** [err.Error()] for the errors of the store. *)
Definition Error (err : StoreError) : string :=
  match err with
  | ErrCartEmpty => "cart is empty"
  | ErrDiscountNotActive => "no active discount code"
  | ErrDiscountAlreadyUsed => "discount code already used"
  | ErrDiscountMismatch => "discount code mismatch"
  | ErrDiscountNotEligible => "not eligible to generate discount code yet"
  end.

(** The value a handler passes to [writeJSON]. *)
Inductive Payload : Type :=
  | PCart (cart : Cart.t)
  | POrder (order : Order.t)
  | PDiscount (code : DiscountCode.t)
  | PStats (stats : Stats.t)
  | PError (message : string).

Record Response : Type := mkResponse {
  status : Z;
  payload : Payload;
}.

Definition writeJSON (status : Z) (payload : Payload) : Response :=
  mkResponse status payload.

Definition writeError (status : Z) (message : string) : Response :=
  writeJSON status (PError message).

(** The request struct of [handleAddItem]. *)
Record addItemRequest : Type := mkAddItemRequest {
  reqSKU : string;
  reqName : string;
  reqPrice : float;
  reqQuantity : Z;
}.

(** [decoded] is the outcome of decoding the body: [None] when [Decode]
    returned an error. *)
Definition handleAddItem (userID : string) (decoded : option addItemRequest)
    (s : MemoryStore) : Response * MemoryStore :=
  match decoded with
  | None => (writeError StatusBadRequest "invalid payload", s)
  | Some req =>
      if String.eqb (reqSKU req) "" || (reqQuantity req <=? 0) ||
         PrimFloat.leb (reqPrice req) 0%float
      then (writeError StatusBadRequest "sku, price and quantity are required", s)
      else
        let '(cart, s) :=
          AddItem userID
            (CartItem.mk (reqSKU req) (reqName req) (reqPrice req) (reqQuantity req))
            s in
        (writeJSON StatusCreated (PCart cart), s)
  end.

Definition handleViewCart (userID : string) (s : MemoryStore)
  : Response * MemoryStore :=
  let '(cart, s) := ViewCart userID s in
  (writeJSON StatusOK (PCart cart), s).

(** [discountCode] is the field of the request struct after [Decode],
    whose error the handler drops. *)
Definition handleCheckout (env : Env) (userID discountCode : string)
    (s : MemoryStore) : Response * MemoryStore :=
  match Checkout env userID discountCode s with
  | (Err err, s) =>
      (match err with
       | ErrCartEmpty => writeError StatusBadRequest (Error err)
       | ErrDiscountNotActive | ErrDiscountAlreadyUsed | ErrDiscountMismatch =>
           writeError StatusUnprocessableEntity (Error err)
       | _ => writeError StatusInternalServerError (Error err)
       end, s)
  | (Ok order, s) => (writeJSON StatusOK (POrder order), s)
  end.

Definition handleGenerateDiscount (env : Env) (s : MemoryStore)
  : Response * MemoryStore :=
  match GenerateDiscount env s with
  | (Err err, s) =>
      let status :=
        match err with
        | ErrDiscountNotEligible => StatusConflict
        | _ => StatusBadRequest
        end in
      (writeError status (Error err), s)
  | (Ok code, s) => (writeJSON StatusCreated (PDiscount code), s)
  end.

Definition handleStats (s : MemoryStore) : Response * MemoryStore :=
  (writeJSON StatusOK (PStats (Stats s)), s).

(** A request as the router dispatches it to a handler. *)
Inductive Request : Type :=
  | PostItems (userID : string) (decoded : option addItemRequest)
  | GetItems (userID : string)
  | PostCheckout (env : Env) (userID discountCode : string)
  | PostGenerate (env : Env)
  | GetStats.

Definition serve (req : Request) (s : MemoryStore) : Response * MemoryStore :=
  match req with
  | PostItems userID decoded => handleAddItem userID decoded s
  | GetItems userID => handleViewCart userID s
  | PostCheckout env userID discountCode => handleCheckout env userID discountCode s
  | PostGenerate env => handleGenerateDiscount env s
  | GetStats => handleStats s
  end.

(** The store after a sequence of requests. *)
Definition serve_all (reqs : list Request) (s : MemoryStore) : MemoryStore :=
  fold_left (λ s req, (serve req s).2) reqs s.

(** Every line of every cart has a sku and a price the handler accepts. *)
Definition lines_valid (s : MemoryStore) : Prop :=
  ∀ userID sku line,
    Cart.Items (cart_of s userID) !! sku = Some line →
    CartItem.SKU line ≠ "" ∧ PrimFloat.leb (CartItem.Price line) 0%float = false.

End HTTP.

(** ** The entry point ([cmd/server/main.go]) *)

(** The threshold [main] passes to [NewMemoryStore]: 3, unless the
    variable [NTH_ORDER_DISCOUNT] is set and [strconv.Atoi] reads a
    positive int off it. [Atoi] gives [None] where [strconv.Atoi] returns
    an error. *)
Definition main_nthOrder (Atoi : string → option Z) (fromEnv : string) : Z :=
  let nthOrder := 3 in
  if negb (String.eqb fromEnv "") then
    match Atoi fromEnv with
    | Some v => if v >? 0 then v else nthOrder
    | None => nthOrder
    end
  else nthOrder.

(** The characters that are easy to confuse and that [letters] leaves
    out. *)
Definition confusable : string := "IO01".

(** The clock reading [Checkout] makes the order's id from: the first one
    without a code, the second one with a code, after the reading for
    [RedeemedAt]. *)
Definition id_reading (discountCode : string) : nat :=
  if decide (discountCode = "") then 0%nat else 1%nat.

(** ** Scenarios *)

(** The environment of the scenarios: maps visited in [map_to_list] order,
    the clock at a fixed instant, every random draw 0. *)
Definition scn_env : Env := fixed_env 1700000000000000000 0.

Definition widget : CartItem.t := CartItem.mk "SKU1" "Widget" 10%float 2.

(** A store with threshold 3 where user-1 holds two widgets. *)
Definition scn_cart : MemoryStore :=
  (AddItem "user-1" widget (NewMemoryStore 3)).2.

(** The discount life cycle of the store's test: threshold 1, a first
    order of 100, a generated code, then a cart of 50 for user-2. *)
Definition scn_first_order : MemoryStore :=
  run [OpAddItem "user-1" (CartItem.mk "SKU1" "Widget" 100%float 1);
       OpCheckout scn_env "user-1" ""]
    (NewMemoryStore 1).

Definition bag : CartItem.t := CartItem.mk "SKU2" "Bag" 50%float 1.

Definition scn_code_active : MemoryStore :=
  run [OpGenerateDiscount scn_env; OpAddItem "user-2" bag] scn_first_order.

(** The code that [scn_env] makes [GenerateDiscount] draw. *)
Definition scn_code : string := "DISC-AAAAAA".

Definition scn_redeemed : MemoryStore :=
  (Checkout scn_env "user-2" scn_code scn_code_active).2.

(** The order that the redeeming checkout of [scn_code_active] returns. *)
Definition scn_order : Order.t :=
  Order.mk "ord_1700000000000000001" "user-2" [bag] 45%float scn_code 5%float
    (TimeAt 1700000000000000002).

(** A later environment whose random draws are again all 0. *)
Definition scn_env_later : Env := fixed_env 1800000000000000000 0.

(** After the redemption a second code is generated, with the same draws
    as the first, and user-2 fills the cart again. *)
Definition scn_code_again : MemoryStore :=
  run [OpGenerateDiscount scn_env_later; OpAddItem "user-2" bag] scn_redeemed.

(** The order of the second checkout with the same code string. *)
Definition scn_order_again : Order.t :=
  Order.mk "ord_1800000000000000001" "user-2" [bag] 45%float scn_code 5%float
    (TimeAt 1800000000000000002).

(** * Properties *)

(** ** Machine integers *)

Module GoIntFacts.
Import GoInt.

Lemma wrap_in_range z : in_range z → wrap z = z.
Proof.
  unfold in_range, wrap, min_int, max_int. intros H.
  rewrite Z.mod_small; lia.
Qed.

Lemma wrap_range z : in_range (wrap z).
Proof.
  unfold in_range, wrap, min_int, max_int.
  pose proof (Z.mod_pos_bound (z + 2 ^ 63) (2 ^ 64) ltac:(lia)). lia.
Qed.


Lemma add_in_range x y : in_range (x + y) → add x y = x + y.
Proof. apply wrap_in_range. Qed.



End GoIntFacts.

(** ** The loop of [Checkout] *)

Lemma checkout_loop_spec (entries : list (string * CartItem.t)) items gross sold :
  fold_left checkout_visit entries (items, gross, sold) =
    (items ++ entries.*2,
     fold_left visit_gross (entries.*2) gross,
     GoInt.sum_from sold (CartItem.Quantity <$> entries.*2)).
Proof.
  revert items gross sold.
  induction entries as [|[k item] entries IH]; intros items gross sold; simpl.
  - by rewrite app_nil_r.
  - rewrite IH. by rewrite <- app_assoc.
Qed.

(** ** [getOrCreateCart] *)

Lemma getOrCreateCart_cart userID s :
  (getOrCreateCart userID s).1 = cart_of s userID.
Proof.
  unfold getOrCreateCart, cart_of. by destruct (carts s !! userID).
Qed.

Lemma getOrCreateCart_carts userID s :
  carts (getOrCreateCart userID s).2 =
    match carts s !! userID with
    | Some _ => carts s
    | None => <[userID := empty_cart]> (carts s)
    end.
Proof.
  unfold getOrCreateCart. by destruct (carts s !! userID).
Qed.

Lemma getOrCreateCart_lookup userID s :
  carts (getOrCreateCart userID s).2 !! userID = Some (cart_of s userID).
Proof.
  unfold getOrCreateCart, cart_of.
  destruct (carts s !! userID) eqn:E; simpl; [done|].
  by rewrite lookup_insert_eq.
Qed.

Lemma getOrCreateCart_cart_of userID s userID' :
  cart_of (getOrCreateCart userID s).2 userID' = cart_of s userID'.
Proof.
  unfold getOrCreateCart, cart_of.
  destruct (carts s !! userID) eqn:E; simpl; [done|].
  destruct (decide (userID = userID')) as [<-|Hne].
  - by rewrite lookup_insert_eq, E.
  - by rewrite lookup_insert_ne.
Qed.

Lemma getOrCreateCart_frame userID s :
  let s' := (getOrCreateCart userID s).2 in
  orders s' = orders s ∧ discountHistory s' = discountHistory s ∧
  activeDiscount s' = activeDiscount s ∧
  nthOrderThreshold s' = nthOrderThreshold s ∧
  nextEligibleOrder s' = nextEligibleOrder s ∧
  totalItemsSold s' = totalItemsSold s ∧
  grossRevenue s' = grossRevenue s ∧ totalDiscount s' = totalDiscount s.
Proof.
  unfold getOrCreateCart. by destruct (carts s !! userID).
Qed.

(** ** [Checkout], with its loop summarised *)

Lemma Checkout_unfold env userID discountCode s :
  Checkout env userID discountCode s =
    let s0 := (getOrCreateCart userID s).2 in
    let cart := cart_of s userID in
    if decide (size (Cart.Items cart) = 0%nat) then (Err ErrCartEmpty, s0) else
    let items := (range_items env (Cart.Items cart)).*2 in
    let gross := gross_of items in
    let s1 :=
      with_totalItemsSold
        (GoInt.sum_from (totalItemsSold s) (CartItem.Quantity <$> items)) s0 in
    if String.eqb discountCode "" then
      checkout_record env 0 userID items gross F64.zero "" s1
    else
      match activeDiscount s with
      | None => (Err ErrDiscountNotActive, s1)
      | Some active =>
          if DiscountCode.IsRedeemed active then (Err ErrDiscountAlreadyUsed, s1)
          else if negb (String.eqb (DiscountCode.Code active) discountCode)
          then (Err ErrDiscountMismatch, s1)
          else
            let discountApplied :=
              gross ⊗ (DiscountCode.Percentage active ⊘ 100%float) in
            checkout_record env 1 userID items gross discountApplied
              (DiscountCode.Code active)
              (redeem_update env active discountApplied s1)
      end.
Proof.
  unfold Checkout.
  pose proof (getOrCreateCart_cart userID s) as Hc.
  pose proof (getOrCreateCart_frame userID s) as (_ & _ & Ha & _ & _ & Ht & _).
  destruct (getOrCreateCart userID s) as [cart s0]. simpl in *. subst cart.
  destruct (decide (size (Cart.Items (cart_of s userID)) = 0%nat)); [done|].
  rewrite checkout_loop_spec. simpl. rewrite Ht, Ha.
  destruct (String.eqb discountCode ""); [done|].
  destruct (activeDiscount s) as [active|]; [|done].
  destruct (DiscountCode.IsRedeemed active); [done|].
  by destruct (negb (String.eqb (DiscountCode.Code active) discountCode)).
Qed.

(** Errors [Checkout] can return. *)
Lemma Checkout_errors env userID discountCode s e s' :
  Checkout env userID discountCode s = (Err e, s') →
  e = ErrCartEmpty ∨ e = ErrDiscountNotActive ∨
  e = ErrDiscountAlreadyUsed ∨ e = ErrDiscountMismatch.
Proof.
  rewrite Checkout_unfold. cbv zeta.
  repeat case_match; unfold checkout_record; intros [= <- <-]; auto.
Qed.

(** With no code supplied, a non-empty cart always checks out. *)
Lemma Checkout_no_code_succeeds env userID s :
  Cart.Items (cart_of s userID) ≠ ∅ →
  is_ok (Checkout env userID "" s).1 = true.
Proof.
  intros Hne. rewrite Checkout_unfold. cbv zeta.
  destruct (decide (size (Cart.Items (cart_of s userID)) = 0%nat)) as [Hz|_].
  - by apply map_size_empty_iff in Hz.
  - reflexivity.
Qed.

(** ** Failed checkouts *)

(** C1, as amended. A checkout that returns an error records no order,
    leaves the discount state (active code, history, next eligible order
    count, threshold) and the aggregates [grossRevenue] and [totalDiscount]
    as they were, and changes no cart's content: the one change to the cart
    registry is the empty cart entry created for a user that had none. When
    the error is [ErrCartEmpty], [totalItemsSold] is unchanged as well. *)
Theorem checkout_error_frame env userID discountCode s e s' :
  Checkout env userID discountCode s = (Err e, s') →
  orders s' = orders s ∧
  discountHistory s' = discountHistory s ∧
  activeDiscount s' = activeDiscount s ∧
  nextEligibleOrder s' = nextEligibleOrder s ∧
  nthOrderThreshold s' = nthOrderThreshold s ∧
  grossRevenue s' = grossRevenue s ∧
  totalDiscount s' = totalDiscount s ∧
  carts s' =
    match carts s !! userID with
    | Some _ => carts s
    | None => <[userID := empty_cart]> (carts s)
    end ∧
  (∀ userID', cart_of s' userID' = cart_of s userID') ∧
  (e = ErrCartEmpty → totalItemsSold s' = totalItemsSold s).
Proof.
  rewrite Checkout_unfold. cbv zeta.
  pose proof (getOrCreateCart_frame userID s) as (Ho & Hh & Ha & Hn & Hne & Ht & Hg & Hd).
  pose proof (getOrCreateCart_carts userID s) as Hc.
  pose proof (getOrCreateCart_cart_of userID s) as Hv.
  cbv zeta in *.
  repeat case_match; unfold checkout_record; intros [= <- <-]; simpl;
    (repeat split; try done).
Qed.

Lemma checkout_error_frame_witness :
  Checkout scn_env "user-1" "BOGUS" scn_cart =
    (Err ErrDiscountNotActive, with_totalItemsSold 2 scn_cart) ∧
  orders (with_totalItemsSold 2 scn_cart) = orders scn_cart ∧
  activeDiscount (with_totalItemsSold 2 scn_cart) = activeDiscount scn_cart ∧
  carts (with_totalItemsSold 2 scn_cart) = carts scn_cart.
Proof.
  assert (H : Checkout scn_env "user-1" "BOGUS" scn_cart =
                (Err ErrDiscountNotActive, with_totalItemsSold 2 scn_cart))
    by (vm_compute; reflexivity).
  split; [exact H|].
  pose proof (checkout_error_frame _ _ _ _ _ _ H) as (Ho & _ & Ha & _ & _ & _ & _ & Hc & _).
  split; [exact Ho|]. split; [exact Ha|]. exact Hc.
Defined.

(** C1 as stated fails twice over: a checkout of an unknown user fails
    with [ErrCartEmpty] and yet adds a cart entry to the registry, and a
    checkout that fails on its discount code has already added the cart's
    quantities to [totalItemsSold]. *)
Lemma checkout_error_changes_store :
  (Checkout scn_env "ghost" "" (NewMemoryStore 3)).1 = Err ErrCartEmpty ∧
  (Checkout scn_env "ghost" "" (NewMemoryStore 3)).2 ≠ NewMemoryStore 3 ∧
  (Checkout scn_env "user-1" "BOGUS" scn_cart).1 = Err ErrDiscountNotActive ∧
  (Checkout scn_env "user-1" "BOGUS" scn_cart).2 ≠ scn_cart ∧
  totalItemsSold scn_cart = 0 ∧
  totalItemsSold (Checkout scn_env "user-1" "BOGUS" scn_cart).2 = 2.
Proof.
  split; [by vm_compute|]. split.
  { intros H. apply (f_equal (λ s, carts s !! "ghost")) in H.
    vm_compute in H. discriminate H. }
  split; [by vm_compute|]. split.
  { intros H. apply (f_equal totalItemsSold) in H.
    vm_compute in H. discriminate H. }
  split; by vm_compute.
Qed.

(** ** Lazy creation of carts *)

(** C10. Every checkout leaves a cart entry for its user in the registry.
    For a user without one, the checkout fails with [ErrCartEmpty] and the
    registry gains exactly an empty cart for that user, which a following
    [ViewCart] returns without creating anything. *)
Theorem checkout_creates_cart env userID discountCode s :
  is_Some (carts (Checkout env userID discountCode s).2 !! userID) ∧
  (carts s !! userID = None →
   let s' := (Checkout env userID discountCode s).2 in
   (Checkout env userID discountCode s).1 = Err ErrCartEmpty ∧
   carts s' = <[userID := empty_cart]> (carts s) ∧
   carts s' !! userID = Some empty_cart ∧
   ViewCart userID s' = (empty_cart, s')).
Proof.
  split.
  - rewrite Checkout_unfold. cbv zeta.
    pose proof (getOrCreateCart_lookup userID s) as Hl.
    repeat case_match; unfold checkout_record; simpl;
      rewrite ?lookup_insert_eq; eauto.
  - intros Hnone. cbv zeta. rewrite Checkout_unfold. cbv zeta.
    unfold cart_of, getOrCreateCart. rewrite Hnone. simpl.
    rewrite map_size_empty. simpl.
    repeat split; [by rewrite lookup_insert_eq|].
    unfold ViewCart, getOrCreateCart. simpl. by rewrite lookup_insert_eq.
Qed.

Lemma checkout_creates_cart_witness :
  carts (NewMemoryStore 3) !! "ghost" = None ∧
  (Checkout scn_env "ghost" "" (NewMemoryStore 3)).1 = Err ErrCartEmpty ∧
  carts (Checkout scn_env "ghost" "" (NewMemoryStore 3)).2 !! "ghost" =
    Some empty_cart.
Proof.
  assert (H : carts (NewMemoryStore 3) !! "ghost" = None) by reflexivity.
  split; [exact H|].
  destruct (checkout_creates_cart scn_env "ghost" "" (NewMemoryStore 3)) as [_ Hc].
  destruct (Hc H) as (He & _ & Hl & _). split; [exact He | exact Hl].
Defined.

(** ** Items are not validated *)


(** ** The counters and the ledger *)

(** C3, at a checkout of two widgets with a code while none is active.
    The call fails with [ErrDiscountNotActive] and records no order, but
    [totalItemsSold] has gone from 0 to 2; the checkout that follows
    succeeds and counts the same widgets again, so the counter stands at 4
    where the ledger holds 2 items. *)
Theorem totalItemsSold_diverges_from_ledger :
  let failed := Checkout scn_env "user-1" "BOGUS" scn_cart in
  let retried := Checkout scn_env "user-1" "" failed.2 in
  failed.1 = Err ErrDiscountNotActive ∧
  orders failed.2 = [] ∧
  totalItemsSold failed.2 = 2 ∧
  ledger_itemsSold (orders failed.2) = 0 ∧
  is_ok retried.1 = true ∧
  totalItemsSold retried.2 = 4 ∧
  Stats.TotalItemsSold (Stats retried.2) = 4 ∧
  ledger_itemsSold (orders retried.2) = 2.
Proof. cbv zeta. repeat split; by vm_compute. Qed.

(** ** Generating a discount code *)

(** C4. [GenerateDiscount] succeeds exactly when the ledger holds at least
    [nextEligibleOrder] orders and no unredeemed code is active. When it
    fails, the error is [ErrDiscountNotEligible] and the store is
    unchanged; when it succeeds, the code has percentage 10, carries the
    current [nextEligibleOrder], is unredeemed, and is the active code of
    the store, which is otherwise unchanged. *)
Theorem GenerateDiscount_spec env s :
  (is_ok (GenerateDiscount env s).1 = true ↔
   nextEligibleOrder s <= Z.of_nat (length (orders s)) ∧ no_active_unredeemed s) ∧
  match GenerateDiscount env s with
  | (Err e, s') => e = ErrDiscountNotEligible ∧ s' = s
  | (Ok code, s') =>
      DiscountCode.Percentage code = 10%float ∧
      DiscountCode.EligibleOrderNum code = nextEligibleOrder s ∧
      DiscountCode.IsRedeemed code = false ∧
      DiscountCode.Code code = generateDiscountCode env ∧
      activeDiscount s' = Some code ∧
      s' = with_activeDiscount (Some code) s
  end.
Proof.
  unfold GenerateDiscount, no_active_unredeemed.
  destruct (Z.geb_spec (Z.of_nat (length (orders s))) (nextEligibleOrder s)) as [Hge|Hlt];
    simpl.
  - destruct (activeDiscount s) as [active|] eqn:Ha.
    + destruct (DiscountCode.IsRedeemed active) eqn:Hr; simpl.
      * split; [|done]. split; [|done]. intros _. split; [lia|].
        intros ? [= <-]. exact Hr.
      * split; [|done]. split; [done|]. intros [_ H].
        specialize (H active eq_refl). congruence.
    + simpl. split; [|done]. split; [|done]. intros _. split; [lia|]. done.
  - split; [|done]. split; [done|]. intros [H _]. lia.
Qed.

(** ** Successful checkouts *)

(** What a successful checkout returns and the store it leaves, with [k]
    the clock readings made before the order is built. *)
Lemma checkout_record_spec env k userID items gross discountApplied codeUsed s o s' :
  checkout_record env k userID items gross discountApplied codeUsed s = (Ok o, s') →
  Order.UserID o = userID ∧ Order.Items o = items ∧
  Order.TotalAmount o = gross ⊖ discountApplied ∧
  Order.DiscountCode o = codeUsed ∧ Order.DiscountValue o = discountApplied ∧
  carts s' = <[userID := empty_cart]> (carts s) ∧
  orders s' = orders s ++ [o] ∧
  grossRevenue s' = grossRevenue s ⊕ gross.
Proof. unfold checkout_record. by intros [= <- <-]. Qed.

(** C5. A successful checkout was made on a non-empty cart; the order it
    returns lists the lines of that cart, each once, in some order; the
    user's cart entry remains and is empty afterwards, as a following
    [ViewCart] shows. *)
Theorem checkout_empties_cart env userID discountCode s o s' :
  Env_ok env →
  Checkout env userID discountCode s = (Ok o, s') →
  (∃ cart, carts s !! userID = Some cart ∧ Cart.Items cart ≠ ∅ ∧
           Order.Items o ≡ₚ (map_to_list (Cart.Items cart)).*2) ∧
  carts s' !! userID = Some empty_cart ∧
  ViewCart userID s' = (empty_cart, s') ∧
  orders s' = orders s ++ [o].
Proof.
  intros [Hperm _]. rewrite Checkout_unfold. cbv zeta.
  destruct (decide (size (Cart.Items (cart_of s userID)) = 0%nat)) as [|Hsz]; [done|].
  assert (Hcart : ∃ cart, carts s !! userID = Some cart ∧ Cart.Items cart ≠ ∅ ∧
            (range_items env (Cart.Items (cart_of s userID))).*2 ≡ₚ
              (map_to_list (Cart.Items cart)).*2).
  { unfold cart_of in *. destruct (carts s !! userID) as [cart|]; simpl in *.
    - exists cart. split; [done|]. split.
      + intros He. apply Hsz. rewrite He. apply map_size_empty.
      + by rewrite Hperm.
    - exfalso. apply Hsz. apply map_size_empty. }
  intros Hck.
  assert (Hrec : ∃ k gross d c s1,
            carts s1 = carts (getOrCreateCart userID s).2 ∧
            orders s1 = orders s ∧
            checkout_record env k userID
              (range_items env (Cart.Items (cart_of s userID))).*2 gross d c s1
            = (Ok o, s')).
  { pose proof (getOrCreateCart_frame userID s) as (Ho & _).
    cbv zeta in Ho. revert Hck. repeat case_match; intros Hck; try discriminate Hck.
    - eexists 0%nat, _, _, _, _. split; [|split; [|exact Hck]]; done.
    - eexists 1%nat, _, _, _, _. split; [|split; [|exact Hck]]; done. }
  destruct Hrec as (k & gross & d & c & s1 & Hc1 & Ho1 & Hrec).
  apply checkout_record_spec in Hrec as (_ & Hitems & _ & _ & _ & Hc & Ho & _).
  split; [by rewrite Hitems|].
  assert (Hl : carts s' !! userID = Some empty_cart)
    by (rewrite Hc; apply lookup_insert_eq).
  split; [exact Hl|]. split; [|by rewrite Ho, Ho1].
  unfold ViewCart, getOrCreateCart. by rewrite Hl.
Qed.

Lemma checkout_empties_cart_witness :
  Env_ok scn_env ∧
  Checkout scn_env "user-2" scn_code scn_code_active = (Ok scn_order, scn_redeemed) ∧
  carts scn_code_active !! "user-2" = Some (Cart.mk {[ "SKU2" := bag ]}) ∧
  Order.Items scn_order = [bag] ∧
  carts scn_redeemed !! "user-2" = Some empty_cart.
Proof.
  assert (He : Env_ok scn_env).
  { split; [done|]. intros k n Hn. simpl. lia. }
  assert (H : Checkout scn_env "user-2" scn_code scn_code_active
              = (Ok scn_order, scn_redeemed)) by (vm_compute; reflexivity).
  split; [exact He|]. split; [exact H|].
  destruct (checkout_empties_cart _ _ _ _ _ _ He H) as (_ & Hl & _).
  split; [by vm_compute|]. split; [reflexivity | exact Hl].
Defined.

(** C6. The order of a successful checkout has
    [TotalAmount = gross - DiscountValue], where [gross] is the sum of
    quantity times price over the order's items, which are the cart's
    lines as the loop visited them. Without a code the discount value is
    0; with a code it is [gross * (Percentage / 100)] for the active code,
    which is the one supplied. A gross of 50 with a code of 10 percent
    gives a total of 45 and a discount of 5. *)
Theorem checkout_amounts env userID discountCode s o s' :
  Checkout env userID discountCode s = (Ok o, s') →
  let gross := gross_of (Order.Items o) in
  Order.Items o = (range_items env (Cart.Items (cart_of s userID))).*2 ∧
  Order.TotalAmount o = gross ⊖ Order.DiscountValue o ∧
  (discountCode = "" →
   Order.DiscountValue o = 0%float ∧ Order.DiscountCode o = "") ∧
  (discountCode ≠ "" →
   ∃ active, activeDiscount s = Some active ∧
     DiscountCode.Code active = discountCode ∧
     Order.DiscountCode o = discountCode ∧
     Order.DiscountValue o =
       gross ⊗ (DiscountCode.Percentage active ⊘ 100%float) ∧
     (DiscountCode.Percentage active = 10%float → gross = 50%float →
      Order.TotalAmount o = 45%float ∧ Order.DiscountValue o = 5%float)).
Proof.
  rewrite Checkout_unfold. cbv zeta.
  destruct (decide (size (Cart.Items (cart_of s userID)) = 0%nat)); [done|].
  destruct (String.eqb_spec discountCode "") as [->|Hcode].
  - intros H. apply checkout_record_spec in H as (_ & Hi & Ht & Hc & Hd & _).
    rewrite Hi, Ht, Hd. done.
  - destruct (activeDiscount s) as [active|]; [|done].
    destruct (DiscountCode.IsRedeemed active); [done|].
    destruct (String.eqb_spec (DiscountCode.Code active) discountCode) as [Heq|]; [|done].
    simpl. intros H. apply checkout_record_spec in H as (_ & Hi & Ht & Hc & Hd & _).
    rewrite Hi, Ht, Hd. split; [done|]. split; [done|]. split; [done|].
    intros _. exists active. split; [done|]. split; [done|].
    split; [congruence|]. split; [done|].
    intros -> ->. by vm_compute.
Qed.

Lemma checkout_amounts_witness :
  Checkout scn_env "user-2" scn_code scn_code_active = (Ok scn_order, scn_redeemed) ∧
  gross_of (Order.Items scn_order) = 50%float ∧
  Order.TotalAmount scn_order = 45%float ∧
  Order.DiscountValue scn_order = 5%float ∧
  Stats.TotalDiscountGiven (Stats scn_redeemed) = 5%float.
Proof.
  assert (H : Checkout scn_env "user-2" scn_code scn_code_active
              = (Ok scn_order, scn_redeemed)) by (vm_compute; reflexivity).
  split; [exact H|]. split; [by vm_compute|].
  destruct (checkout_amounts _ _ _ _ _ _ H) as (_ & _ & _ & Hd).
  destruct (Hd ltac:(discriminate)) as (active & Ha & _ & _ & _ & H45).
  assert (Hp : DiscountCode.Percentage active = 10%float).
  { vm_compute in Ha. by injection Ha as <-. }
  destruct (H45 Hp ltac:(by vm_compute)) as [Ht Hv].
  split; [exact Ht|]. split; [exact Hv|]. by vm_compute.
Defined.

(** ** Adding items *)

Lemma AddItem_cart_of userID item s :
  cart_of (AddItem userID item s).2 userID = (AddItem userID item s).1.
Proof.
  unfold AddItem. destruct (getOrCreateCart userID s) as [cart s0].
  unfold cart_of. simpl. by rewrite lookup_insert_eq.
Qed.






(** ** The discount state along a call *)

(** Every call keeps the threshold. A call that redeems a code found it
    active and unredeemed, clears the slot, adds the threshold to the next
    eligible order count and records one order. Any other call keeps the
    count and never shortens the ledger; it keeps the active slot too,
    unless it is a [GenerateDiscount] that succeeds. *)
Lemma apply_op_cases op s :
  let s' := apply_op op s in
  nthOrderThreshold s' = nthOrderThreshold s ∧
  ((¬ redeems op s ∧
    nextEligibleOrder s' = nextEligibleOrder s ∧
    (length (orders s) ≤ length (orders s'))%nat ∧
    (activeDiscount s' = activeDiscount s ∨
     ∃ env code, op = OpGenerateDiscount env ∧
       activeDiscount s' = Some code ∧
       DiscountCode.IsRedeemed code = false ∧
       DiscountCode.Code code = generateDiscountCode env ∧
       orders s' = orders s ∧
       nextEligibleOrder s <= Z.of_nat (length (orders s))))
   ∨
   (redeems op s ∧
    ∃ active, activeDiscount s = Some active ∧
      DiscountCode.IsRedeemed active = false ∧
      activeDiscount s' = None ∧
      nextEligibleOrder s' =
        GoInt.add (nextEligibleOrder s) (nthOrderThreshold s) ∧
      length (orders s') = S (length (orders s)))).
Proof.
  cbv zeta. destruct op as [userID item|userID|env userID discountCode|env|]; simpl.
  - (* AddItem *)
    unfold AddItem.
    pose proof (getOrCreateCart_frame userID s) as (Ho & _ & Ha & Hn & Hne & _).
    destruct (getOrCreateCart userID s) as [cart s0]. simpl in *.
    split; [done|]. left. split; [by intros (? & ? & ? & ? & ? & ? & _)|].
    split; [done|]. split; [by rewrite Ho|]. by left.
  - (* ViewCart *)
    unfold ViewCart.
    pose proof (getOrCreateCart_frame userID s) as (Ho & _ & Ha & Hn & Hne & _).
    cbv zeta in *.
    split; [done|]. left. split; [by intros (? & ? & ? & ? & ? & ? & _)|].
    split; [done|]. split; [by rewrite Ho|]. by left.
  - (* Checkout *)
    pose proof (getOrCreateCart_frame userID s) as (Ho & _ & Ha & Hn & Hne & _).
    cbv zeta in *.
    assert (Hnot : ∀ e s1, Checkout env userID discountCode s = (Err e, s1) →
              ¬ redeems (OpCheckout env userID discountCode) s).
    { intros e s1 He (? & ? & ? & ? & ? & [= <- <- <-] & _ & Hok). congruence. }
    revert Hnot. rewrite Checkout_unfold. cbv zeta.
    destruct (decide (size (Cart.Items (cart_of s userID)) = 0%nat)).
    { intros Hnot. simpl. split; [done|]. left. split; [by eapply Hnot|].
      split; [done|]. split; [by rewrite Ho|]. by left. }
    destruct (String.eqb_spec discountCode "") as [->|Hcode].
    { intros _. simpl. split; [done|]. left.
      split; [by intros (? & ? & ? & ? & ? & [= <- <- <-] & ? & _)|].
      split; [done|]. split; [rewrite Ho, length_app; simpl; lia|]. by left. }
    destruct (activeDiscount s) as [active|] eqn:Hact.
    2:{ intros Hnot. simpl. split; [done|]. left. split; [by eapply Hnot|].
        split; [done|]. split; [by rewrite Ho|]. left. by rewrite Ha. }
    destruct (DiscountCode.IsRedeemed active) eqn:Hred.
    { intros Hnot. simpl. split; [done|]. left. split; [by eapply Hnot|].
      split; [done|]. split; [by rewrite Ho|]. left. by rewrite Ha. }
    destruct (String.eqb_spec (DiscountCode.Code active) discountCode) as [Heq|Hneq].
    2:{ intros Hnot. simpl. split; [done|]. left. split; [by eapply Hnot|].
        split; [done|]. split; [by rewrite Ho|]. left. by rewrite Ha. }
    intros _. simpl. split; [done|]. right. split.
    { assert (Hok : ∃ o s', Checkout env userID discountCode s = (Ok o, s')).
      { rewrite Checkout_unfold. cbv zeta.
        destruct (decide (size (Cart.Items (cart_of s userID)) = 0%nat)); [done|].
        destruct (String.eqb_spec discountCode ""); [done|].
        rewrite Hact, Hred.
        destruct (String.eqb_spec (DiscountCode.Code active) discountCode); [|done].
        unfold checkout_record. eauto. }
      destruct Hok as (o & s' & Hok).
      by exists env, userID, discountCode, o, s'. }
    exists active. split; [done|]. split; [done|]. split; [done|].
    split; [by rewrite Hne, Hn|]. rewrite Ho, length_app. simpl. lia.
  - (* GenerateDiscount *)
    unfold GenerateDiscount.
    destruct (Z.geb_spec (Z.of_nat (length (orders s))) (nextEligibleOrder s)) as [Hge|Hlt];
      simpl.
    2:{ split; [done|]. left. split; [by intros (? & ? & ? & ? & ? & ? & _)|].
        split; [done|]. split; [done|]. by left. }
    destruct (match activeDiscount s with
              | Some active => negb (DiscountCode.IsRedeemed active)
              | None => false
              end); simpl.
    + split; [done|]. left. split; [by intros (? & ? & ? & ? & ? & ? & _)|].
      split; [done|]. split; [done|]. by left.
    + split; [done|]. left. split; [by intros (? & ? & ? & ? & ? & ? & _)|].
      split; [done|]. split; [done|]. right.
      eexists env, _. repeat split; try done; lia.
  - (* Stats *)
    split; [done|]. left. split; [by intros (? & ? & ? & ? & ? & ? & _)|].
    split; [done|]. split; [done|]. by left.
Qed.

Lemma run_app before after s :
  run (before ++ after) s = run after (run before s).
Proof. apply fold_left_app. Qed.

Lemma reachable_run ops : ∀ s, reachable s → reachable (run ops s).
Proof.
  induction ops as [|op ops IH]; intros s Hs; [done|].
  simpl. apply IH. by constructor.
Qed.

Lemma run_ledger_length ops : ∀ s,
  (length (orders s) ≤ length (orders (run ops s)))%nat.
Proof.
  induction ops as [|op ops IH]; intros s; [done|].
  simpl. etrans; [|apply IH].
  destruct (apply_op_cases op s) as [_ [(_ & _ & Hlen & _)|(_ & ? & _ & _ & _ & _ & Hlen)]];
    cbv zeta in *; lia.
Qed.

Lemma run_threshold ops : ∀ s,
  nthOrderThreshold (run ops s) = nthOrderThreshold s.
Proof.
  induction ops as [|op ops IH]; intros s; [done|].
  simpl. rewrite IH. apply apply_op_cases.
Qed.

Lemma ledger_fits_before ops s : ledger_fits (run ops s) → ledger_fits s.
Proof.
  unfold ledger_fits. pose proof (run_ledger_length ops s). lia.
Qed.

(** ** The invariant of the discount state *)

Lemma discount_inv_new nthOrder :
  GoInt.in_range nthOrder → discount_inv (NewMemoryStore nthOrder).
Proof.
  intros _. unfold NewMemoryStore.
  destruct (Z.leb_spec nthOrder 0); split; simpl; lia.
Qed.

(** While the ledger fits, a redemption adds the threshold without
    wrapping around. *)
Lemma redeem_no_wrap s active :
  discount_inv s → ledger_fits s → activeDiscount s = Some active →
  GoInt.add (nextEligibleOrder s) (nthOrderThreshold s) =
    nextEligibleOrder s + nthOrderThreshold s.
Proof.
  intros [Hpos Hle Hact] Hfit Ha. rewrite Ha in Hact. destruct Hact as [_ Hlen].
  apply GoIntFacts.add_in_range.
  unfold ledger_fits in Hfit. unfold GoInt.in_range, GoInt.min_int, GoInt.max_int.
  lia.
Qed.

Lemma discount_inv_step op s :
  discount_inv s → ledger_fits s → discount_inv (apply_op op s).
Proof.
  intros Hinv Hfit.
  destruct (apply_op_cases op s) as [Hth Hcases]. cbv zeta in *.
  destruct Hinv as [Hpos Hle Hact].
  destruct Hcases as [(_ & Hne & Hlen & Hslot)|(_ & active & Ha & Hr & Ha' & Hne & Hlen)].
  - split; rewrite ?Hth, ?Hne; try done.
    destruct Hslot as [->|(env & code & _ & -> & Hred & _ & _ & Hge)].
    + destruct (activeDiscount s); [split|]; try tauto; lia.
    + split; [done|]. lia.
  - pose proof (redeem_no_wrap s active (mk_discount_inv _ Hpos Hle Hact) Hfit Ha) as Hadd.
    rewrite Ha in Hact. destruct Hact as [_ Hge].
    split; rewrite ?Hth, ?Ha', ?Hne, ?Hadd; lia.
Qed.

Lemma reachable_inv s : reachable s → ledger_fits s → discount_inv s.
Proof.
  induction 1 as [nthOrder Hr|op s Hs IH]; intros Hfit.
  - by apply discount_inv_new.
  - assert (Hfit0 : ledger_fits s) by (by apply (ledger_fits_before [op])).
    apply discount_inv_step; auto.
Qed.

(** One call: the count moves by the threshold at a redemption and not at
    all otherwise. *)
Lemma nextEligibleOrder_step op s :
  discount_inv s → ledger_fits s →
  (redeems op s →
   nextEligibleOrder (apply_op op s) = nextEligibleOrder s + nthOrderThreshold s) ∧
  (¬ redeems op s → nextEligibleOrder (apply_op op s) = nextEligibleOrder s) ∧
  nextEligibleOrder s <= nextEligibleOrder (apply_op op s).
Proof.
  intros Hinv Hfit.
  destruct (apply_op_cases op s) as [_ Hcases]. cbv zeta in *.
  destruct Hcases as [(Hnot & Hne & _)|(Hred & active & Ha & _ & _ & Hne & _)].
  - rewrite Hne. split; [done|]. split; [done|]. lia.
  - rewrite Hne, (redeem_no_wrap s active Hinv Hfit Ha).
    destruct Hinv as [Hpos _ _]. split; [done|]. split; [done|]. lia.
Qed.

(** C9. Along any sequence of calls on a store of the server, with a
    ledger that fits at the end, [nextEligibleOrder] never decreases and
    the threshold stays what was configured; each call of the sequence
    either redeems a code, and then adds exactly the threshold to
    [nextEligibleOrder], or leaves [nextEligibleOrder] as it was. *)
Theorem nextEligibleOrder_monotone s ops :
  reachable s → ledger_fits (run ops s) →
  nextEligibleOrder s <= nextEligibleOrder (run ops s) ∧
  nthOrderThreshold (run ops s) = nthOrderThreshold s ∧
  0 < nthOrderThreshold s ∧
  ∀ before op after, ops = before ++ op :: after →
    let s1 := run before s in
    let s2 := apply_op op s1 in
    (redeems op s1 →
     nextEligibleOrder s2 = nextEligibleOrder s1 + nthOrderThreshold s) ∧
    (¬ redeems op s1 → nextEligibleOrder s2 = nextEligibleOrder s1).
Proof.
  intros Hreach Hfit. split; [|split; [|split]].
  - revert s Hreach Hfit.
    induction ops as [|op ops IH]; intros s Hreach Hfit; [done|].
    simpl in *.
    assert (Hfit1 : ledger_fits (apply_op op s)) by (by eapply ledger_fits_before).
    assert (Hfit0 : ledger_fits s) by (by apply (ledger_fits_before [op])).
    pose proof (nextEligibleOrder_step op s (reachable_inv s Hreach Hfit0) Hfit0)
      as (_ & _ & Hle).
    etrans; [exact Hle|]. apply IH; [by constructor | done].
  - apply run_threshold.
  - pose proof (reachable_inv s Hreach (ledger_fits_before _ _ Hfit)) as [Hpos _ _]. lia.
  - intros before op after ->. cbv zeta.
    rewrite run_app in Hfit. simpl in Hfit.
    assert (Hfit1 : ledger_fits (run before s)).
    { apply (ledger_fits_before [op]). by eapply ledger_fits_before. }
    pose proof (reachable_inv _ (reachable_run before s Hreach) Hfit1) as Hinv.
    pose proof (nextEligibleOrder_step op _ Hinv Hfit1) as (Hred & Hnot & _).
    rewrite run_threshold in Hred. done.
Qed.

Lemma nextEligibleOrder_monotone_witness :
  reachable scn_code_active ∧
  nextEligibleOrder scn_code_active = 1 ∧
  nthOrderThreshold scn_code_active = 1 ∧
  redeems (OpCheckout scn_env "user-2" scn_code) scn_code_active ∧
  nextEligibleOrder (run [OpCheckout scn_env "user-2" scn_code] scn_code_active) = 2.
Proof.
  assert (Hreach : reachable scn_code_active).
  { unfold scn_code_active, scn_first_order.
    do 2 apply reachable_run. by constructor. }
  assert (Hred : redeems (OpCheckout scn_env "user-2" scn_code) scn_code_active).
  { exists scn_env, "user-2", scn_code, scn_order, scn_redeemed.
    split; [done|]. split; [done|]. by vm_compute. }
  assert (Hfit : ledger_fits (run [OpCheckout scn_env "user-2" scn_code] scn_code_active))
    by (by vm_compute).
  destruct (nextEligibleOrder_monotone scn_code_active
              [OpCheckout scn_env "user-2" scn_code] Hreach Hfit)
    as (_ & _ & _ & Hstep).
  destruct (Hstep [] _ [] eq_refl) as [Hadd _].
  split; [exact Hreach|]. split; [reflexivity|]. split; [reflexivity|].
  split; [exact Hred|]. exact (Hadd Hred).
Defined.

(** ** Reusing a redeemed code *)

Lemma slot_other_step discountCode op s :
  generates_other discountCode op →
  slot_other discountCode s → slot_other discountCode (apply_op op s).
Proof.
  intros Hgen Hslot.
  destruct (apply_op_cases op s) as [_ Hcases]. cbv zeta in *.
  destruct Hcases as [(_ & _ & _ & [Hsame|Hnew])|(_ & ? & _ & _ & Hnone & _)].
  - unfold slot_other. by rewrite Hsame.
  - destruct Hnew as (env & code & -> & Hact & Hred & Hcode & _).
    intros active. rewrite Hact. intros [= <-]. split; [done|].
    rewrite Hcode. exact Hgen.
  - intros active. by rewrite Hnone.
Qed.

Lemma slot_other_run discountCode ops : ∀ s,
  Forall (generates_other discountCode) ops →
  slot_other discountCode s → slot_other discountCode (run ops s).
Proof.
  induction ops as [|op ops IH]; intros s Hops Hslot; [done|].
  inversion Hops; subst. simpl. apply IH; [done|]. by apply slot_other_step.
Qed.

(** A checkout with a code empties the active slot when it succeeds. *)
Lemma Checkout_redeem_clears env userID discountCode s o s' :
  discountCode ≠ "" →
  Checkout env userID discountCode s = (Ok o, s') →
  activeDiscount s' = None ∧ Order.DiscountCode o = discountCode.
Proof.
  intros Hcode. rewrite Checkout_unfold. cbv zeta.
  destruct (decide (size (Cart.Items (cart_of s userID)) = 0%nat)); [done|].
  destruct (String.eqb_spec discountCode ""); [done|].
  destruct (activeDiscount s) as [active|]; [|done].
  destruct (DiscountCode.IsRedeemed active); [done|].
  destruct (String.eqb_spec (DiscountCode.Code active) discountCode); [|done].
  unfold checkout_record. by intros [= <- <-].
Qed.

(** C7, as amended. Once a checkout has redeemed a code string, a later
    checkout with that string fails for as long as no [GenerateDiscount]
    in between has drawn the same string again: with [ErrCartEmpty] when
    the cart is empty, and otherwise with [ErrDiscountNotActive] or
    [ErrDiscountMismatch]. *)
Theorem redeemed_code_rejected env userID discountCode s o s' ops env' userID' :
  discountCode ≠ "" →
  Checkout env userID discountCode s = (Ok o, s') →
  Forall (generates_other discountCode) ops →
  let later := (Checkout env' userID' discountCode (run ops s')).1 in
  (Cart.Items (cart_of (run ops s') userID') = ∅ ∧ later = Err ErrCartEmpty) ∨
  (Cart.Items (cart_of (run ops s') userID') ≠ ∅ ∧
   (later = Err ErrDiscountNotActive ∨ later = Err ErrDiscountMismatch)).
Proof.
  intros Hcode Hok Hops. cbv zeta.
  destruct (Checkout_redeem_clears _ _ _ _ _ _ Hcode Hok) as [Hnone _].
  assert (Hslot : slot_other discountCode (run ops s')).
  { apply slot_other_run; [done|]. intros active. by rewrite Hnone. }
  rewrite Checkout_unfold. cbv zeta.
  destruct (decide (size (Cart.Items (cart_of (run ops s') userID')) = 0%nat)) as [Hz|Hnz].
  { left. split; [by apply map_size_empty_iff|done]. }
  right. split; [by rewrite <- map_size_empty_iff|].
  destruct (String.eqb_spec discountCode ""); [done|].
  destruct (activeDiscount (run ops s')) as [active|] eqn:Hact; [|by left].
  destruct (Hslot active Hact) as [-> Hne].
  destruct (String.eqb_spec (DiscountCode.Code active) discountCode); [done|].
  by right.
Qed.

Lemma redeemed_code_rejected_witness :
  Checkout scn_env "user-2" scn_code scn_code_active = (Ok scn_order, scn_redeemed) ∧
  (Checkout scn_env_later "user-2" scn_code
     (run [OpAddItem "user-2" bag] scn_redeemed)).1 = Err ErrDiscountNotActive.
Proof.
  assert (H : Checkout scn_env "user-2" scn_code scn_code_active
              = (Ok scn_order, scn_redeemed)) by (vm_compute; reflexivity).
  split; [exact H|].
  destruct (redeemed_code_rejected scn_env "user-2" scn_code scn_code_active
              scn_order scn_redeemed [OpAddItem "user-2" bag] scn_env_later "user-2"
              ltac:(discriminate) H ltac:(repeat constructor))
    as [[Hempty _]|[_ [Hna|Hmm]]].
  - apply (f_equal (λ m, m !! "SKU2")) in Hempty. vm_compute in Hempty.
    discriminate Hempty.
  - exact Hna.
  - vm_compute in Hmm. discriminate Hmm.
Defined.

(** C7 as stated fails: the second code is drawn with the same random
    indices as the first, so the string redeemed by the first checkout is
    accepted by a later one. A later checkout on an empty cart fails, but
    with [ErrCartEmpty]. *)
Lemma code_redeemed_twice :
  Checkout scn_env "user-2" scn_code scn_code_active = (Ok scn_order, scn_redeemed) ∧
  Order.DiscountCode scn_order = scn_code ∧
  scn_code_again =
    run [OpGenerateDiscount scn_env_later; OpAddItem "user-2" bag] scn_redeemed ∧
  (Checkout scn_env_later "user-2" scn_code scn_code_again).1 = Ok scn_order_again ∧
  Order.DiscountCode scn_order_again = scn_code ∧
  (Checkout scn_env_later "user-2" scn_code scn_redeemed).1 = Err ErrCartEmpty.
Proof. repeat split; by vm_compute. Qed.

(** * Further properties of the store *)

(** ** The store after each call *)

Lemma getOrCreateCart_state userID s :
  (getOrCreateCart userID s).2 = with_carts (carts (getOrCreateCart userID s).2) s.
Proof.
  unfold getOrCreateCart. destruct (carts s !! userID); [|done]. by destruct s.
Qed.

(** A failed checkout leaves the store that [getOrCreateCart] left, up to
    [totalItemsSold]. *)
Lemma Checkout_err_inv env userID discountCode s e s' :
  Checkout env userID discountCode s = (Err e, s') →
  ∃ sold, s' = with_totalItemsSold sold (getOrCreateCart userID s).2.
Proof.
  rewrite Checkout_unfold. cbv zeta.
  repeat case_match; unfold checkout_record; intros [= <- <-]; eauto.
  exists (totalItemsSold (getOrCreateCart userID s).2).
  by destruct (getOrCreateCart userID s).2.
Qed.

(** The two ways a checkout succeeds, with the order and the store it
    leaves. *)
Lemma Checkout_ok_inv env userID discountCode s o s' :
  Checkout env userID discountCode s = (Ok o, s') →
  Cart.Items (cart_of s userID) ≠ ∅ ∧
  let items := (range_items env (Cart.Items (cart_of s userID))).*2 in
  let gross := gross_of items in
  let sold := GoInt.sum_from (totalItemsSold s) (CartItem.Quantity <$> items) in
  let registry := <[userID := empty_cart]> (carts (getOrCreateCart userID s).2) in
  (discountCode = "" ∧
   o = Order.mk (generateOrderID env 0) userID items (gross ⊖ F64.zero) ""
         F64.zero (TimeAt (clock env 1)) ∧
   s' = mkStore registry (orders s ++ [o]) (discountHistory s) (activeDiscount s)
          (nthOrderThreshold s) (nextEligibleOrder s) sold
          (grossRevenue s ⊕ gross) (totalDiscount s))
  ∨
  (discountCode ≠ "" ∧
   ∃ active, activeDiscount s = Some active ∧
     DiscountCode.IsRedeemed active = false ∧
     DiscountCode.Code active = discountCode ∧
     let discountApplied := gross ⊗ (DiscountCode.Percentage active ⊘ 100%float) in
     o = Order.mk (generateOrderID env 1) userID items (gross ⊖ discountApplied)
           discountCode discountApplied (TimeAt (clock env 2)) ∧
     s' = mkStore registry (orders s ++ [o])
            (discountHistory s ++
               [DiscountCode.mk discountCode (DiscountCode.Percentage active)
                  (DiscountCode.GeneratedAt active) (TimeAt (clock env 0)) true
                  (DiscountCode.EligibleOrderNum active)])
            None (nthOrderThreshold s)
            (GoInt.add (nextEligibleOrder s) (nthOrderThreshold s)) sold
            (grossRevenue s ⊕ gross) (totalDiscount s ⊕ discountApplied)).
Proof.
  rewrite Checkout_unfold. cbv zeta.
  pose proof (getOrCreateCart_frame userID s) as (Ho & Hh & Ha & Hn & Hne & Ht & Hg & Hd).
  cbv zeta in *.
  destruct (decide (size (Cart.Items (cart_of s userID)) = 0%nat)) as [|Hsz]; [done|].
  intros H. split; [by rewrite <- map_size_empty_iff|]. revert H.
  destruct (String.eqb_spec discountCode "") as [->|Hcode].
  - unfold checkout_record. simpl. rewrite Ho, Hh, Ha, Hn, Hne, Hg, Hd.
    intros [= <- <-]. by left.
  - destruct (activeDiscount s) as [active|] eqn:Hact; [|done].
    destruct (DiscountCode.IsRedeemed active) eqn:Hred; [done|].
    destruct (String.eqb_spec (DiscountCode.Code active) discountCode) as [Heq|]; [|done].
    unfold checkout_record, redeem_update. simpl.
    rewrite Ho, Hh, Hn, Hne, Hg, Hd, Heq.
    intros [= <- <-]. right. split; [done|]. by exists active.
Qed.

(** The carts after a successful checkout: the user's is empty, the
    others are as before. *)
Lemma Checkout_ok_cart_of env userID discountCode s o s' userID' :
  Checkout env userID discountCode s = (Ok o, s') →
  cart_of s' userID' =
    if decide (userID' = userID) then empty_cart else cart_of s userID'.
Proof.
  intros H. apply Checkout_ok_inv in H as [_ H]. cbv zeta in H.
  assert (Hc : carts s' = <[userID := empty_cart]> (carts (getOrCreateCart userID s).2)).
  { destruct H as [(_ & _ & ->)|(_ & ? & _ & _ & _ & _ & ->)]; done. }
  unfold cart_of at 1. rewrite Hc. destruct (decide (userID' = userID)) as [->|Hne].
  - by rewrite lookup_insert_eq.
  - rewrite lookup_insert_ne by done. apply getOrCreateCart_cart_of.
Qed.

(** The carts after a failed checkout are as before. *)
Lemma Checkout_err_cart_of env userID discountCode s e s' userID' :
  Checkout env userID discountCode s = (Err e, s') →
  cart_of s' userID' = cart_of s userID'.
Proof.
  intros H. apply Checkout_err_inv in H as [sold ->].
  apply getOrCreateCart_cart_of.
Qed.

(** The store after [AddItem], field by field. *)
Lemma AddItem_state userID item s :
  (AddItem userID item s).2 =
    with_carts (<[userID := (AddItem userID item s).1]> (carts (getOrCreateCart userID s).2)) s.
Proof.
  unfold AddItem. pose proof (getOrCreateCart_state userID s) as Hs.
  destruct (getOrCreateCart userID s) as [cart s0]. simpl in *.
  rewrite Hs at 2. reflexivity.
Qed.

(** The cart [AddItem] returns: the user's cart with the line of the
    item's sku inserted or merged. *)
Lemma AddItem_cart userID item s :
  (AddItem userID item s).1 =
    Cart.mk
      (<[CartItem.SKU item :=
           match Cart.Items (cart_of s userID) !! CartItem.SKU item with
           | Some existing =>
               CartItem.mk (CartItem.SKU existing) (CartItem.Name item)
                 (CartItem.Price item)
                 (GoInt.add (CartItem.Quantity existing) (CartItem.Quantity item))
           | None => item
           end]> (Cart.Items (cart_of s userID))).
Proof.
  unfold AddItem. pose proof (getOrCreateCart_cart userID s) as Hc.
  destruct (getOrCreateCart userID s) as [cart s0]. simpl in *. subst cart.
  by destruct (Cart.Items (cart_of s userID) !! CartItem.SKU item).
Qed.

Lemma AddItem_cart_of_other userID item s userID' :
  userID' ≠ userID →
  cart_of (AddItem userID item s).2 userID' = cart_of s userID'.
Proof.
  intros Hne. rewrite AddItem_state. unfold cart_of at 1. simpl.
  rewrite lookup_insert_ne by done. apply getOrCreateCart_cart_of.
Qed.

(** ** The invariant of the books *)

Lemma ledger_gross_snoc os o :
  ledger_gross (os ++ [o]) = ledger_gross os ⊕ gross_of (Order.Items o).
Proof. unfold ledger_gross. by rewrite fold_left_app. Qed.

Lemma ledger_discount_snoc os o :
  ledger_discount (os ++ [o]) =
    if String.eqb (Order.DiscountCode o) "" then ledger_discount os
    else ledger_discount os ⊕ Order.DiscountValue o.
Proof. unfold ledger_discount. by rewrite fold_left_app. Qed.

Lemma ledger_codes_snoc os o :
  ledger_codes (os ++ [o]) =
    ledger_codes os ++
    (if String.eqb (Order.DiscountCode o) "" then [] else [Order.DiscountCode o]).
Proof.
  unfold ledger_codes. rewrite fmap_app, filter_app. f_equal. simpl.
  destruct (String.eqb_spec (Order.DiscountCode o) "") as [He|Hne].
  - by rewrite filter_cons_False by (by intros ?).
  - by rewrite filter_cons_True.
Qed.

Lemma books_inv_new nthOrder : books_inv (NewMemoryStore nthOrder).
Proof.
  split; simpl; done.
Qed.

Lemma books_inv_AddItem userID item s :
  books_inv s → books_inv (AddItem userID item s).2.
Proof.
  intros [Hk Hg Hd Ho Hh Hc Hs]. rewrite AddItem_state.
  split; simpl; try done.
  intros userID' sku line. destruct (decide (userID' = userID)) as [->|Hne].
  - unfold cart_of at 1. simpl. rewrite lookup_insert_eq, AddItem_cart. simpl.
    destruct (decide (sku = CartItem.SKU item)) as [->|Hsku].
    + rewrite lookup_insert_eq. intros [= <-].
      destruct (Cart.Items (cart_of s userID) !! CartItem.SKU item) as [existing|] eqn:He;
        [|done].
      simpl. by apply (Hk userID).
    + rewrite lookup_insert_ne by done. apply Hk.
  - unfold cart_of at 1. simpl. rewrite lookup_insert_ne by done.
    pose proof (getOrCreateCart_cart_of userID s userID') as Hv.
    unfold cart_of at 1 in Hv. rewrite Hv. apply Hk.
Qed.

Lemma books_inv_getOrCreateCart userID s :
  books_inv s → books_inv (getOrCreateCart userID s).2.
Proof.
  intros [Hk Hg Hd Ho Hh Hc Hs]. rewrite getOrCreateCart_state.
  split; simpl; try done.
  intros userID' sku line.
  pose proof (getOrCreateCart_cart_of userID s userID') as Hv.
  unfold cart_of at 1 in Hv. unfold cart_of at 1. simpl. rewrite Hv. apply Hk.
Qed.

Lemma books_inv_Checkout env userID discountCode s :
  books_inv s → books_inv (Checkout env userID discountCode s).2.
Proof.
  intros Hinv.
  destruct (Checkout env userID discountCode s) as [[o|e] s'] eqn:Hck; simpl.
  - (* the order is recorded *)
    pose proof (λ userID', Checkout_ok_cart_of _ _ _ _ _ _ userID' Hck) as Hcart.
    apply Checkout_ok_inv in Hck as [_ Hck]. cbv zeta in Hck.
    destruct Hinv as [Hk Hg Hd Ho Hh Hc Hs].
    assert (Hkeys : ∀ userID' sku line,
              Cart.Items (cart_of s' userID') !! sku = Some line →
              CartItem.SKU line = sku).
    { intros userID' sku line. rewrite Hcart. case_decide; [|apply Hk].
      simpl. by rewrite lookup_empty. }
    destruct Hck as [(-> & Ho' & ->)|(Hcode & active & Hact & Hred & Heq & Ho' & ->)].
    + split; simpl; try done.
      * rewrite ledger_gross_snoc, Hg. by subst o.
      * rewrite ledger_discount_snoc, Hd. by subst o.
      * apply Forall_app. split; [done|]. constructor; [|done]. by subst o.
      * rewrite ledger_codes_snoc, Hc. subst o. simpl. by rewrite app_nil_r.
    + destruct (Hs active Hact) as (_ & _ & Hpct & _ & _).
      assert (Hnb : String.eqb discountCode "" = false)
        by (by apply String.eqb_neq).
      split; simpl; try done.
      * rewrite ledger_gross_snoc, Hg. by subst o.
      * rewrite ledger_discount_snoc, Hd. subst o. simpl. by rewrite Hnb.
      * apply Forall_app. split; [done|]. constructor; [|done].
        subst o. unfold order_wf. simpl. by rewrite Hnb, Hpct.
      * apply Forall_app. split; [done|]. constructor; [|done].
        by repeat split.
      * rewrite ledger_codes_snoc, fmap_app, Hc. subst o. simpl. by rewrite Hnb.
  - (* the checkout fails *)
    apply Checkout_err_inv in Hck as [sold ->].
    pose proof (books_inv_getOrCreateCart userID s Hinv) as [Hk Hg Hd Ho Hh Hc Hs].
    split; simpl; done.
Qed.

Lemma generateDiscountCode_nonempty env : generateDiscountCode env ≠ "".
Proof. unfold generateDiscountCode. done. Qed.

Lemma books_inv_GenerateDiscount env s :
  books_inv s → books_inv (GenerateDiscount env s).2.
Proof.
  intros [Hk Hg Hd Ho Hh Hc Hs]. unfold GenerateDiscount.
  case_match; simpl; [done|].
  split; simpl; try done;
    intros active [= <-]; repeat split; simpl; try done;
    apply generateDiscountCode_nonempty.
Qed.

Lemma books_inv_step op s : books_inv s → books_inv (apply_op op s).
Proof.
  destruct op; simpl.
  - apply books_inv_AddItem.
  - apply books_inv_getOrCreateCart.
  - apply books_inv_Checkout.
  - apply books_inv_GenerateDiscount.
  - done.
Qed.

Lemma reachable_books_inv s : reachable s → books_inv s.
Proof.
  induction 1 as [nthOrder _|op s _ IH].
  - apply books_inv_new.
  - by apply books_inv_step.
Qed.

(** ** Carts *)

(** X1. In every store of the server each line of each cart sits under
    the sku it carries. *)
Theorem cart_lines_keyed_by_sku s userID cart sku line :
  reachable s →
  carts s !! userID = Some cart →
  Cart.Items cart !! sku = Some line →
  CartItem.SKU line = sku.
Proof.
  intros Hreach Hcart Hline.
  apply (inv_keys s (reachable_books_inv s Hreach) userID).
  unfold cart_of. by rewrite Hcart.
Qed.

Lemma cart_lines_keyed_by_sku_witness :
  reachable scn_cart ∧
  carts scn_cart !! "user-1" = Some (Cart.mk {[ "SKU1" := widget ]}) ∧
  CartItem.SKU widget = "SKU1".
Proof.
  assert (Hreach : reachable scn_cart).
  { apply (reachable_step (OpAddItem "user-1" widget)). by constructor. }
  assert (Hcart : carts scn_cart !! "user-1" = Some (Cart.mk {[ "SKU1" := widget ]}))
    by (by vm_compute).
  split; [exact Hreach|]. split; [exact Hcart|].
  apply (cart_lines_keyed_by_sku scn_cart "user-1" _ "SKU1" widget Hreach Hcart).
  by vm_compute.
Defined.

(** X2. [AddItem] touches one line of one cart: the other lines of the
    user's cart, the carts of the other users, the ledger, the discount
    state and the aggregates are as before. *)
Theorem AddItem_frame userID item s :
  let s' := (AddItem userID item s).2 in
  (∀ sku, sku ≠ CartItem.SKU item →
     cart_entry s' userID sku = cart_entry s userID sku) ∧
  (∀ userID', userID' ≠ userID → cart_of s' userID' = cart_of s userID') ∧
  orders s' = orders s ∧
  discountHistory s' = discountHistory s ∧
  activeDiscount s' = activeDiscount s ∧
  nthOrderThreshold s' = nthOrderThreshold s ∧
  nextEligibleOrder s' = nextEligibleOrder s ∧
  totalItemsSold s' = totalItemsSold s ∧
  grossRevenue s' = grossRevenue s ∧
  totalDiscount s' = totalDiscount s.
Proof.
  cbv zeta. split; [|split; [apply AddItem_cart_of_other|]].
  - intros sku Hsku. unfold cart_entry. rewrite AddItem_cart_of, AddItem_cart.
    simpl. by rewrite lookup_insert_ne.
  - by rewrite AddItem_state.
Qed.

(** X3. [ViewCart] returns the user's cart, an empty one if the user has
    none; it changes no cart's content and nothing else in the store, and
    a second [ViewCart] changes nothing at all. *)
Theorem ViewCart_spec userID s :
  let r := ViewCart userID s in
  r.1 = cart_of s userID ∧
  (carts s !! userID = None → r.1 = empty_cart) ∧
  (∀ userID', cart_of r.2 userID' = cart_of s userID') ∧
  r.2 = with_carts (carts r.2) s ∧
  ViewCart userID r.2 = r.
Proof.
  cbv zeta. unfold ViewCart.
  split; [apply getOrCreateCart_cart|].
  split. { intros Hnone. unfold getOrCreateCart. by rewrite Hnone. }
  split; [apply getOrCreateCart_cart_of|].
  split; [apply getOrCreateCart_state|].
  pose proof (getOrCreateCart_lookup userID s) as Hl.
  pose proof (getOrCreateCart_cart userID s) as Hc.
  destruct (getOrCreateCart userID s) as [cart s0]. simpl in *.
  unfold getOrCreateCart. rewrite Hl. by subst cart.
Qed.

(** X4. After [AddItem], [ViewCart] returns the very cart [AddItem]
    returned and leaves the store as it is. *)
Theorem ViewCart_after_AddItem userID item s :
  ViewCart userID (AddItem userID item s).2 = AddItem userID item s.
Proof.
  unfold ViewCart, getOrCreateCart.
  pose proof (AddItem_cart_of userID item s) as Hc. unfold cart_of in Hc.
  rewrite AddItem_state in *. simpl in *. rewrite lookup_insert_eq in *.
  simpl in Hc. rewrite <- AddItem_state. by destruct (AddItem userID item s).
Qed.

(** X5. A checkout, whether it succeeds or fails, changes no cart but the
    caller's, and a failed one does not change that one either. *)
Theorem Checkout_other_carts env userID discountCode s userID' :
  userID' ≠ userID ∨ is_ok (Checkout env userID discountCode s).1 = false →
  cart_of (Checkout env userID discountCode s).2 userID' = cart_of s userID'.
Proof.
  intros Hcase.
  destruct (Checkout env userID discountCode s) as [[o|e] s'] eqn:Hck; simpl in *.
  - rewrite (Checkout_ok_cart_of _ _ _ _ _ _ userID' Hck).
    destruct Hcase as [Hne|?]; [|done]. by rewrite decide_False.
  - by eapply Checkout_err_cart_of.
Qed.

Lemma Checkout_other_carts_witness :
  cart_of (Checkout scn_env "user-2" scn_code scn_code_active).2 "user-1" =
    cart_of scn_code_active "user-1".
Proof.
  apply (Checkout_other_carts scn_env "user-2" scn_code scn_code_active "user-1").
  left. discriminate.
Defined.

(** ** Checkout *)

(** X6. The outcome of a checkout is decided in this order: an empty cart
    gives [ErrCartEmpty] whatever the code; otherwise no code gives an
    order; otherwise no active code gives [ErrDiscountNotActive], a
    redeemed active code [ErrDiscountAlreadyUsed], another string than the
    active code's [ErrDiscountMismatch], and the active code's string
    gives an order. *)
Theorem Checkout_outcome env userID discountCode s :
  let r := (Checkout env userID discountCode s).1 in
  (Cart.Items (cart_of s userID) = ∅ → r = Err ErrCartEmpty) ∧
  (Cart.Items (cart_of s userID) ≠ ∅ →
   if decide (discountCode = "") then is_ok r = true else
   match activeDiscount s with
   | None => r = Err ErrDiscountNotActive
   | Some active =>
       if DiscountCode.IsRedeemed active then r = Err ErrDiscountAlreadyUsed
       else if decide (DiscountCode.Code active = discountCode)
       then is_ok r = true
       else r = Err ErrDiscountMismatch
   end).
Proof.
  cbv zeta. rewrite Checkout_unfold. cbv zeta. split.
  - intros He. rewrite He, map_size_empty. done.
  - intros Hne.
    destruct (decide (size (Cart.Items (cart_of s userID)) = 0%nat)) as [Hz|_].
    { by apply map_size_empty_iff in Hz. }
    destruct (String.eqb_spec discountCode "") as [->|Hcode].
    { by rewrite decide_True. }
    rewrite decide_False by done.
    destruct (activeDiscount s) as [active|]; [|done].
    destruct (DiscountCode.IsRedeemed active); [done|].
    destruct (String.eqb_spec (DiscountCode.Code active) discountCode) as [Heq|Hneq].
    + by rewrite decide_True.
    + by rewrite decide_False.
Qed.

(** X7. A successful checkout appends its order, which carries the
    caller's id, to the ledger and adds the order's gross to
    [grossRevenue], its quantities to [totalItemsSold] and, when a code
    was supplied, its discount to [totalDiscount]; without a code the
    discount state is as before. *)
Theorem Checkout_records_order env userID discountCode s o s' :
  Checkout env userID discountCode s = (Ok o, s') →
  orders s' = orders s ++ [o] ∧
  Order.UserID o = userID ∧
  Order.DiscountCode o = discountCode ∧
  Stats.TotalOrders (Stats s') = Stats.TotalOrders (Stats s) + 1 ∧
  grossRevenue s' = grossRevenue s ⊕ gross_of (Order.Items o) ∧
  totalItemsSold s' =
    GoInt.sum_from (totalItemsSold s) (CartItem.Quantity <$> Order.Items o) ∧
  totalDiscount s' =
    (if decide (discountCode = "") then totalDiscount s
     else totalDiscount s ⊕ Order.DiscountValue o) ∧
  nthOrderThreshold s' = nthOrderThreshold s ∧
  (discountCode = "" →
   activeDiscount s' = activeDiscount s ∧
   discountHistory s' = discountHistory s ∧
   nextEligibleOrder s' = nextEligibleOrder s).
Proof.
  intros H. apply Checkout_ok_inv in H as [_ H]. cbv zeta in H.
  destruct H as [(-> & -> & ->)|(Hcode & active & _ & _ & _ & -> & ->)]; simpl.
  - rewrite length_app. simpl. repeat split; try done. lia.
  - rewrite length_app, decide_False by done. simpl. repeat split; try done. lia.
Qed.

Lemma Checkout_records_order_witness :
  Checkout scn_env "user-2" scn_code scn_code_active = (Ok scn_order, scn_redeemed) ∧
  orders scn_redeemed = orders scn_code_active ++ [scn_order] ∧
  grossRevenue scn_redeemed = 150%float ∧
  totalDiscount scn_redeemed = 5%float.
Proof.
  assert (H : Checkout scn_env "user-2" scn_code scn_code_active
              = (Ok scn_order, scn_redeemed)) by (vm_compute; reflexivity).
  split; [exact H|].
  destruct (Checkout_records_order _ _ _ _ _ _ H) as (Ho & _ & _ & _ & Hg & _ & Hd & _).
  split; [exact Ho|]. split.
  - rewrite Hg. by vm_compute.
  - rewrite Hd. by vm_compute.
Defined.

(** ** The ledger *)

Lemma apply_op_prefix op s :
  orders s `prefix_of` orders (apply_op op s) ∧
  discountHistory s `prefix_of` discountHistory (apply_op op s).
Proof.
  destruct op as [userID item|userID|env userID discountCode|env|]; simpl.
  - by rewrite AddItem_state.
  - unfold ViewCart. by rewrite getOrCreateCart_state.
  - destruct (Checkout env userID discountCode s) as [[o|e] s'] eqn:Hck; simpl.
    + apply Checkout_ok_inv in Hck as [_ Hck]. cbv zeta in Hck.
      destruct Hck as [(_ & _ & ->)|(_ & active & _ & _ & _ & _ & ->)]; simpl;
        split; try done; by apply prefix_app_r.
    + apply Checkout_err_inv in Hck as [sold ->]. simpl.
      by rewrite getOrCreateCart_state.
  - unfold GenerateDiscount. by case_match.
  - done.
Qed.

(** X8. The ledger and the discount history only grow at their end: after
    any sequence of calls the orders and the codes recorded before are
    still there, unchanged and in place. *)
Theorem ledger_append_only ops s :
  orders s `prefix_of` orders (run ops s) ∧
  discountHistory s `prefix_of` discountHistory (run ops s).
Proof.
  revert s. induction ops as [|op ops IH]; intros s; [done|].
  simpl. destruct (apply_op_prefix op s) as [Ho Hh].
  destruct (IH (apply_op op s)) as [Ho' Hh'].
  split; by etrans.
Qed.

(** X9. In every store of the server [grossRevenue] and [totalDiscount],
    as [Stats] reports them, are what the ledger gives when the gross of
    every order, and the discount of every order with a code, are added up
    in ledger order. *)
Theorem revenue_matches_ledger s :
  reachable s →
  Stats.GrossRevenue (Stats s) = ledger_gross (orders s) ∧
  Stats.TotalDiscountGiven (Stats s) = ledger_discount (orders s).
Proof.
  intros Hreach. destruct (reachable_books_inv s Hreach). by simpl.
Qed.

Lemma reachable_scn_redeemed : reachable scn_redeemed.
Proof.
  apply (reachable_step (OpCheckout scn_env "user-2" scn_code)).
  unfold scn_code_active, scn_first_order.
  do 2 apply reachable_run. by constructor.
Qed.

Lemma revenue_matches_ledger_witness :
  Stats.GrossRevenue (Stats scn_redeemed) = ledger_gross (orders scn_redeemed) ∧
  ledger_gross (orders scn_redeemed) = 150%float ∧
  ledger_discount (orders scn_redeemed) = 5%float.
Proof.
  destruct (revenue_matches_ledger scn_redeemed reachable_scn_redeemed) as [Hg _].
  split; [exact Hg|]. split; by vm_compute.
Defined.

(** X10. Every order in the ledger of a store of the server has
    [TotalAmount = gross - DiscountValue] for the gross of its own items,
    and a discount of 0 if it carries no code and of
    [gross * (10 / 100)] if it carries one. *)
Theorem ledger_orders_consistent s o :
  reachable s → o ∈ orders s →
  Order.TotalAmount o = gross_of (Order.Items o) ⊖ Order.DiscountValue o ∧
  Order.DiscountValue o =
    (if decide (Order.DiscountCode o = "") then 0%float
     else gross_of (Order.Items o) ⊗ (10%float ⊘ 100%float)).
Proof.
  intros Hreach Hin.
  pose proof (inv_orders s (reachable_books_inv s Hreach)) as Hall.
  rewrite Forall_forall in Hall. destruct (Hall o Hin) as [Ht Hd].
  split; [exact Ht|]. rewrite Hd.
  destruct (String.eqb_spec (Order.DiscountCode o) "").
  - by rewrite decide_True.
  - by rewrite decide_False.
Qed.

Lemma ledger_orders_consistent_witness :
  scn_order ∈ orders scn_redeemed ∧
  Order.TotalAmount scn_order =
    gross_of (Order.Items scn_order) ⊖ Order.DiscountValue scn_order.
Proof.
  assert (Hin : scn_order ∈ orders scn_redeemed).
  { vm_compute. apply list_elem_of_further, list_elem_of_here. }
  split; [exact Hin|].
  apply (ledger_orders_consistent scn_redeemed scn_order reachable_scn_redeemed Hin).
Defined.

(** ** The discount life cycle *)

(** X11. In every store of the server the history holds the redeemed
    codes only, each at 10 percent with its redemption time set, and their
    strings are, in order, the codes the orders of the ledger carry: one
    history entry per discounted order. *)
Theorem history_matches_ledger s :
  reachable s →
  Forall redeemed_wf (discountHistory s) ∧
  DiscountCode.Code <$> discountHistory s = ledger_codes (orders s) ∧
  length (discountHistory s) = length (ledger_codes (orders s)).
Proof.
  intros Hreach. destruct (reachable_books_inv s Hreach) as [_ _ _ _ Hh Hc _].
  split; [exact Hh|]. split; [exact Hc|].
  by rewrite <- Hc, length_fmap.
Qed.

Lemma history_matches_ledger_witness :
  DiscountCode.Code <$> discountHistory scn_redeemed = [scn_code] ∧
  ledger_codes (orders scn_redeemed) = [scn_code].
Proof.
  destruct (history_matches_ledger scn_redeemed reachable_scn_redeemed) as (_ & Hc & _).
  assert (Hl : ledger_codes (orders scn_redeemed) = [scn_code]) by (by vm_compute).
  split; [by rewrite Hc | exact Hl].
Defined.

(** X12. In a store of the server the active code is never a redeemed
    one, so no checkout returns [ErrDiscountAlreadyUsed]. *)
Theorem Checkout_never_already_used env userID discountCode s :
  reachable s →
  (Checkout env userID discountCode s).1 ≠ Err ErrDiscountAlreadyUsed.
Proof.
  intros Hreach.
  pose proof (inv_slot s (reachable_books_inv s Hreach)) as Hslot.
  rewrite Checkout_unfold. cbv zeta.
  destruct (decide (size (Cart.Items (cart_of s userID)) = 0%nat)); [done|].
  destruct (String.eqb discountCode ""); [done|].
  destruct (activeDiscount s) as [active|]; [|done].
  destruct (Hslot active eq_refl) as (-> & _).
  by destruct (negb (String.eqb (DiscountCode.Code active) discountCode)).
Qed.

Lemma Checkout_never_already_used_witness :
  (Checkout scn_env "user-2" "OTHER" scn_code_active).1 = Err ErrDiscountMismatch ∧
  (Checkout scn_env "user-2" "OTHER" scn_code_active).1 ≠ Err ErrDiscountAlreadyUsed.
Proof.
  split; [by vm_compute|].
  apply Checkout_never_already_used.
  unfold scn_code_active, scn_first_order. do 2 apply reachable_run. by constructor.
Defined.

(** X13. The codes [Stats] lists for a store of the server are the
    history followed by the active code, all at 10 percent; the one code
    of the list that is not redeemed, if any, is the active code. *)
Theorem Stats_discount_codes s d :
  reachable s → d ∈ Stats.DiscountCodes (Stats s) →
  DiscountCode.Percentage d = 10%float ∧
  (DiscountCode.IsRedeemed d = false ↔ Stats.ActiveDiscount (Stats s) = Some d).
Proof.
  intros Hreach. destruct (reachable_books_inv s Hreach) as [_ _ _ _ Hh _ Hslot].
  simpl. rewrite Forall_forall in Hh. intros [Hin|Hin]%elem_of_app.
  - destruct (Hh d Hin) as (Hred & _ & Hpct & _). split; [exact Hpct|].
    split; [congruence|]. intros Ha. destruct (Hslot d Ha) as (Hf & _). congruence.
  - destruct (activeDiscount s) as [active|] eqn:Ha; [|by apply elem_of_nil in Hin].
    apply list_elem_of_singleton in Hin as ->.
    destruct (Hslot active eq_refl) as (Hf & _ & Hpct & _). done.
Qed.

Lemma Stats_discount_codes_witness :
  ∃ d, activeDiscount scn_code_active = Some d ∧
       d ∈ Stats.DiscountCodes (Stats scn_code_active) ∧
       DiscountCode.Percentage d = 10%float.
Proof.
  assert (Hreach : reachable scn_code_active).
  { unfold scn_code_active, scn_first_order. do 2 apply reachable_run. by constructor. }
  destruct (activeDiscount scn_code_active) as [d|] eqn:Ha; [|by vm_compute in Ha].
  exists d. split; [done|].
  assert (Hin : d ∈ Stats.DiscountCodes (Stats scn_code_active)).
  { simpl. rewrite Ha. apply elem_of_app. right. apply list_elem_of_here. }
  split; [exact Hin|].
  apply (Stats_discount_codes scn_code_active d Hreach Hin).
Defined.

Lemma apply_op_history op s :
  (¬ redeems op s → discountHistory (apply_op op s) = discountHistory s) ∧
  (redeems op s →
   length (discountHistory (apply_op op s)) = S (length (discountHistory s))).
Proof.
  destruct op as [userID item|userID|env userID discountCode|env|]; simpl.
  - split; [by rewrite AddItem_state | by intros (? & ? & ? & ? & ? & ? & _)].
  - split; [|by intros (? & ? & ? & ? & ? & ? & _)].
    intros _. unfold ViewCart. by rewrite getOrCreateCart_state.
  - destruct (Checkout env userID discountCode s) as [[o|e] s'] eqn:Hck; simpl.
    + pose proof Hck as Hok.
      apply Checkout_ok_inv in Hck as [_ Hck]. cbv zeta in Hck.
      destruct Hck as [(-> & _ & ->)|(Hcode & active & _ & _ & _ & _ & ->)]; simpl.
      * split; [done|]. by intros (? & ? & ? & ? & ? & [= <- <- <-] & ? & _).
      * split; [|by rewrite length_app; simpl; lia].
        intros Hnot. exfalso. apply Hnot.
        eexists env, userID, discountCode, o, _.
        split; [done|]. split; [done|]. exact Hok.
    + split.
      * intros _. apply Checkout_err_inv in Hck as [sold ->]. simpl.
        by rewrite getOrCreateCart_state.
      * intros (? & ? & ? & ? & ? & [= <- <- <-] & _ & Hok). congruence.
  - split; [|by intros (? & ? & ? & ? & ? & ? & _)].
    intros _. unfold GenerateDiscount. by case_match.
  - split; [done | by intros (? & ? & ? & ? & ? & ? & _)].
Qed.

Lemma nextEligibleOrder_closed s :
  reachable s → ledger_fits s →
  nextEligibleOrder s =
    nthOrderThreshold s * (1 + Z.of_nat (length (discountHistory s))).
Proof.
  induction 1 as [nthOrder _|op s Hreach IH]; intros Hfit.
  - simpl. lia.
  - assert (Hfit0 : ledger_fits s) by (by apply (ledger_fits_before [op])).
    specialize (IH Hfit0).
    pose proof (reachable_inv s Hreach Hfit0) as Hinv.
    pose proof (nextEligibleOrder_step op s Hinv Hfit0) as (Hred & Hnot & _).
    destruct (apply_op_history op s) as [Hsame Hgrow].
    destruct (apply_op_cases op s) as [Hth Hcases]. cbv zeta in *. rewrite Hth.
    destruct Hcases as [(Hn & _)|(Hr & _)].
    + by rewrite (Hnot Hn), (Hsame Hn).
    + rewrite (Hred Hr), (Hgrow Hr), IH. lia.
Qed.

(** X14. In a store of the server whose ledger fits, [nextEligibleOrder]
    is the threshold times one more than the number of redeemed codes,
    and [GenerateDiscount] succeeds exactly when no code is active and the
    ledger holds at least that many orders. *)
Theorem nth_order_rule env s :
  reachable s → ledger_fits s →
  nextEligibleOrder s =
    nthOrderThreshold s * (1 + Z.of_nat (length (discountHistory s))) ∧
  (is_ok (GenerateDiscount env s).1 = true ↔
   activeDiscount s = None ∧
   nthOrderThreshold s * (1 + Z.of_nat (length (discountHistory s)))
     <= Z.of_nat (length (orders s))).
Proof.
  intros Hreach Hfit.
  pose proof (nextEligibleOrder_closed s Hreach Hfit) as Hne.
  split; [exact Hne|]. rewrite <- Hne.
  pose proof (inv_slot s (reachable_books_inv s Hreach)) as Hslot.
  unfold GenerateDiscount.
  destruct (Z.geb_spec (Z.of_nat (length (orders s))) (nextEligibleOrder s)); simpl.
  - destruct (activeDiscount s) as [active|].
    + destruct (Hslot active eq_refl) as (-> & _). simpl. split; [done|]. by intros [? _].
    + simpl. split; [|done]. intros _. split; [done|lia].
  - split; [done|]. intros [_ ?]. lia.
Qed.

Lemma nth_order_rule_witness :
  nextEligibleOrder scn_redeemed = 2 ∧
  length (discountHistory scn_redeemed) = 1%nat ∧
  is_ok (GenerateDiscount scn_env_later scn_redeemed).1 = true.
Proof.
  assert (Hfit : ledger_fits scn_redeemed) by (by vm_compute).
  destruct (nth_order_rule scn_env_later scn_redeemed reachable_scn_redeemed Hfit)
    as [Hne Hgen].
  assert (Hlen : length (discountHistory scn_redeemed) = 1%nat) by (by vm_compute).
  split; [|split; [exact Hlen|]].
  - rewrite Hne, Hlen. by vm_compute.
  - apply Hgen. split; by vm_compute.
Defined.

Lemma quiet_keeps_slot ops : ∀ s,
  Forall quiet ops → activeDiscount (run ops s) = activeDiscount s.
Proof.
  induction ops as [|op ops IH]; intros s Hq; [done|].
  inversion Hq as [|? ? Hop Hops]; subst. simpl. rewrite IH by done.
  destruct (apply_op_cases op s) as [_ Hcases]. cbv zeta in Hcases.
  destruct Hcases as [(_ & _ & _ & [Hsame|Hnew])|(Hred & _)].
  - exact Hsame.
  - by destruct Hnew as (env & code & -> & _).
  - destruct Hred as (? & ? & ? & ? & ? & -> & Hcode & _). by simpl in Hop.
Qed.

(** X15. A generated code can be redeemed: after a successful
    [GenerateDiscount] and any calls that neither generate nor supply a
    code, a checkout of a non-empty cart with the code's string succeeds,
    discounts the order by [gross * (10 / 100)] and empties the active
    slot. *)
Theorem generated_code_redeems env s code s1 ops env' userID :
  GenerateDiscount env s = (Ok code, s1) →
  Forall quiet ops →
  Cart.Items (cart_of (run ops s1) userID) ≠ ∅ →
  ∃ o s2,
    Checkout env' userID (DiscountCode.Code code) (run ops s1) = (Ok o, s2) ∧
    Order.DiscountCode o = DiscountCode.Code code ∧
    Order.DiscountValue o =
      gross_of (Order.Items o) ⊗ (10%float ⊘ 100%float) ∧
    activeDiscount s2 = None.
Proof.
  intros Hgen Hq Hcart.
  assert (Hcode : code =
            DiscountCode.mk (generateDiscountCode env) 10%float
              (TimeAt (clock env 0)) TimeZero false (nextEligibleOrder s) ∧
            activeDiscount s1 = Some code).
  { revert Hgen. unfold GenerateDiscount. case_match; [done|]. by intros [= <- <-]. }
  destruct Hcode as [Hcode Hact].
  assert (Hact' : activeDiscount (run ops s1) = Some code)
    by (by rewrite quiet_keeps_slot).
  assert (Hne : DiscountCode.Code code ≠ "")
    by (rewrite Hcode; apply generateDiscountCode_nonempty).
  assert (Hok : ∃ o s2,
            Checkout env' userID (DiscountCode.Code code) (run ops s1) = (Ok o, s2)).
  { rewrite Checkout_unfold. cbv zeta.
    destruct (decide (size (Cart.Items (cart_of (run ops s1) userID)) = 0%nat)) as [Hz|_].
    { by apply map_size_empty_iff in Hz. }
    destruct (String.eqb_spec (DiscountCode.Code code) ""); [done|].
    assert (Hred : DiscountCode.IsRedeemed code = false) by (by rewrite Hcode).
    rewrite Hact', Hred, String.eqb_refl. simpl.
    unfold checkout_record. eauto. }
  destruct Hok as (o & s2 & Hok). exists o, s2. split; [exact Hok|].
  apply Checkout_ok_inv in Hok as [_ Hok]. cbv zeta in Hok.
  destruct Hok as [(? & _)|(_ & active & Ha & _ & _ & -> & ->)]; [done|].
  rewrite Hact' in Ha. injection Ha as <-. simpl.
  split; [done|]. split; [|done]. by rewrite Hcode.
Qed.

Lemma generated_code_redeems_witness :
  ∃ code s1,
    GenerateDiscount scn_env scn_first_order = (Ok code, s1) ∧
    DiscountCode.Code code = scn_code ∧
    (Checkout scn_env "user-2" scn_code (run [OpAddItem "user-2" bag] s1)).1 =
      Ok scn_order.
Proof.
  destruct (GenerateDiscount scn_env scn_first_order) as [[code|e] s1] eqn:Hgen;
    [|by vm_compute in Hgen].
  exists code, s1. split; [done|].
  assert (Hcode : DiscountCode.Code code = scn_code).
  { vm_compute in Hgen. by injection Hgen as <- <-. }
  split; [exact Hcode|].
  destruct (generated_code_redeems scn_env scn_first_order code s1
              [OpAddItem "user-2" bag] scn_env "user-2" Hgen)
    as (o & s2 & Hok & _).
  { repeat constructor. }
  { vm_compute in Hgen. injection Hgen as <- <-. intros He.
    apply (f_equal (λ m, m !! "SKU2")) in He. vm_compute in He. discriminate He. }
  rewrite Hcode in Hok. rewrite Hok. simpl.
  vm_compute in Hgen. injection Hgen as <- <-.
  vm_compute in Hok. by injection Hok as <- _.
Defined.

(** X16. One code at a time: after a successful [GenerateDiscount], and
    any calls that neither generate nor supply a code, a further
    [GenerateDiscount] fails with [ErrDiscountNotEligible] and changes
    nothing, however many orders the ledger holds. *)
Theorem GenerateDiscount_once env s code s1 ops env' :
  GenerateDiscount env s = (Ok code, s1) →
  Forall quiet ops →
  GenerateDiscount env' (run ops s1) = (Err ErrDiscountNotEligible, run ops s1).
Proof.
  intros Hgen Hq.
  assert (Hact : activeDiscount s1 = Some code ∧ DiscountCode.IsRedeemed code = false).
  { revert Hgen. unfold GenerateDiscount. case_match; [done|]. by intros [= <- <-]. }
  destruct Hact as [Hact Hred].
  unfold GenerateDiscount. rewrite quiet_keeps_slot, Hact, Hred by done.
  simpl. by rewrite orb_true_r.
Qed.

Lemma GenerateDiscount_once_witness :
  is_ok (GenerateDiscount scn_env scn_first_order).1 = true ∧
  (GenerateDiscount scn_env_later scn_code_active).1 = Err ErrDiscountNotEligible.
Proof.
  split; [by vm_compute|].
  destruct (GenerateDiscount scn_env scn_first_order) as [[code|e] s1] eqn:Hgen;
    [|by vm_compute in Hgen].
  pose proof (GenerateDiscount_once scn_env scn_first_order code s1
                [OpAddItem "user-2" bag] scn_env_later Hgen
                ltac:(repeat constructor)) as H.
  unfold scn_code_active. simpl. unfold run in H. simpl in H.
  rewrite Hgen. simpl. by rewrite H.
Defined.

(** ** Generated strings *)

Lemma letter_at_spec i :
  (i < 32)%nat →
  String.get i letters = Some (letter_at i) ∧
  letter_at i ∈ String.list_ascii_of_string letters ∧
  letter_at i ∉ String.list_ascii_of_string confusable.
Proof.
  intros Hi.
  do 32 (destruct i as [|i];
         [split; [reflexivity|];
          split; apply (bool_decide_unpack _); by vm_compute|]).
  lia.
Qed.

(** X17. A generated code is ["DISC-"] followed by six characters, each
    the letter of [letters] at the index drawn for it, so each one of the
    32 letters and digits of the alphabet and none of I, O, 0 and 1. *)
Theorem generateDiscountCode_format env :
  Env_ok env →
  ∃ suffix,
    generateDiscountCode env = "DISC-" +:+ suffix ∧
    String.length suffix = 6%nat ∧
    (∀ k, (k < 6)%nat →
       String.get k suffix = String.get (intn env k 32) letters) ∧
    Forall
      (λ c, c ∈ String.list_ascii_of_string letters ∧
            c ∉ String.list_ascii_of_string confusable)
      (String.list_ascii_of_string suffix).
Proof.
  intros [_ Hintn].
  assert (Hdraw : ∀ k, (intn env k 32 < 32)%nat).
  { intros k. specialize (Hintn k 32). lia. }
  eexists. split; [reflexivity|]. simpl.
  split; [reflexivity|]. split.
  - intros k Hk.
    do 6 (destruct k as [|k];
          [simpl; symmetry; apply letter_at_spec, Hdraw|]).
    lia.
  - repeat (constructor; [apply letter_at_spec, Hdraw|]). constructor.
Qed.

Lemma generateDiscountCode_format_witness :
  Env_ok scn_env ∧
  generateDiscountCode scn_env = scn_code ∧
  ∃ suffix, generateDiscountCode scn_env = "DISC-" +:+ suffix ∧
            String.length suffix = 6%nat.
Proof.
  assert (He : Env_ok scn_env).
  { split; [done|]. intros k n Hn. simpl. lia. }
  split; [exact He|]. split; [reflexivity|].
  destruct (generateDiscountCode_format scn_env He) as (suffix & Hc & Hl & _).
  by exists suffix.
Defined.

(** X18. The ids of two recorded orders are equal exactly when the clock
    readings they were made from are equal: nothing but the clock keeps
    order ids apart. *)
Theorem order_ids_follow_clock env userID discountCode s o s'
    env2 userID2 discountCode2 t o2 t' :
  Checkout env userID discountCode s = (Ok o, s') →
  Checkout env2 userID2 discountCode2 t = (Ok o2, t') →
  Order.ID o = "ord_" +:+ pretty (clock env (id_reading discountCode)) ∧
  (Order.ID o = Order.ID o2 ↔
   clock env (id_reading discountCode) = clock env2 (id_reading discountCode2)).
Proof.
  intros H1 H2.
  assert (Hid : ∀ env userID discountCode s o s',
            Checkout env userID discountCode s = (Ok o, s') →
            Order.ID o = generateOrderID env (id_reading discountCode)).
  { clear. intros env userID discountCode s o s' H.
    apply Checkout_ok_inv in H as [_ H]. cbv zeta in H. unfold id_reading.
    destruct H as [(-> & -> & _)|(Hcode & active & _ & _ & _ & -> & _)].
    - by rewrite decide_True.
    - by rewrite decide_False. }
  rewrite (Hid _ _ _ _ _ _ H1), (Hid _ _ _ _ _ _ H2). unfold generateOrderID.
  split; [done|]. split.
  - intros Heq. simpl in Heq. injection Heq as Heq. by apply (inj pretty).
  - by intros ->.
Qed.

Lemma order_ids_follow_clock_witness :
  Order.ID scn_order = "ord_1700000000000000001" ∧
  Order.ID scn_order ≠ Order.ID scn_order_again.
Proof.
  assert (H1 : Checkout scn_env "user-2" scn_code scn_code_active
               = (Ok scn_order, scn_redeemed)) by (vm_compute; reflexivity).
  destruct (Checkout scn_env_later "user-2" scn_code scn_code_again)
    as [[o2|e] t'] eqn:H2; [|by vm_compute in H2].
  assert (Ho2 : o2 = scn_order_again).
  { vm_compute in H2. by injection H2 as <- _. }
  destruct (order_ids_follow_clock _ _ _ _ _ _ _ _ _ _ _ _ H1 H2) as [Hid Hiff].
  split; [exact Hid|]. rewrite <- Ho2. intros Heq. apply Hiff in Heq.
  vm_compute in Heq. discriminate Heq.
Defined.

(** * Properties of the HTTP handlers and the entry point *)

Lemma GenerateDiscount_errors env s e s' :
  GenerateDiscount env s = (Err e, s') → e = ErrDiscountNotEligible ∧ s' = s.
Proof. unfold GenerateDiscount. case_match; by intros [= <- <-]. Qed.

(** X19. [handleCheckout] leaves the store [Checkout] leaves and answers
    200 with the order, 400 for an empty cart, or 422 for a code that is
    not accepted; it never answers 500. *)
Theorem handleCheckout_status env userID discountCode s :
  let r := HTTP.handleCheckout env userID discountCode s in
  let c := Checkout env userID discountCode s in
  r.2 = c.2 ∧
  match c.1 with
  | Ok order =>
      r.1 = HTTP.mkResponse 200 (HTTP.POrder order)
  | Err err =>
      r.1 = HTTP.mkResponse (match err with ErrCartEmpty => 400 | _ => 422 end)
              (HTTP.PError (HTTP.Error err))
  end ∧
  HTTP.status r.1 ≠ 500.
Proof.
  cbv zeta. unfold HTTP.handleCheckout.
  destruct (Checkout env userID discountCode s) as [[o|e] s'] eqn:Hck; simpl.
  - done.
  - by destruct (Checkout_errors _ _ _ _ _ _ Hck) as [He|[He|[He|He]]]; subst e.
Qed.

(** X20. [handleGenerateDiscount] answers 201 with the new code, or 409
    with the store unchanged; it never answers 400. *)
Theorem handleGenerateDiscount_status env s :
  let r := HTTP.handleGenerateDiscount env s in
  match (GenerateDiscount env s).1 with
  | Ok code =>
      r = (HTTP.mkResponse 201 (HTTP.PDiscount code), (GenerateDiscount env s).2)
  | Err _ =>
      r = (HTTP.mkResponse 409
             (HTTP.PError "not eligible to generate discount code yet"), s)
  end.
Proof.
  cbv zeta. unfold HTTP.handleGenerateDiscount.
  destruct (GenerateDiscount env s) as [[code|e] s'] eqn:Hgen; simpl; [done|].
  by apply GenerateDiscount_errors in Hgen as [-> ->].
Qed.

(** X21. [handleAddItem] answers 400 and leaves the store untouched, cart
    registry included, when the body does not decode or the item has an
    empty sku, a quantity that is not positive or a price [<= 0]; otherwise
    it answers 201 with the cart [AddItem] returns, in which the line for
    the sku has the name and price of the request. *)
Theorem handleAddItem_spec userID decoded s :
  let r := HTTP.handleAddItem userID decoded s in
  match decoded with
  | None => r = (HTTP.mkResponse 400 (HTTP.PError "invalid payload"), s)
  | Some req =>
      if decide (HTTP.reqSKU req = "" ∨ HTTP.reqQuantity req <= 0 ∨
                 PrimFloat.leb (HTTP.reqPrice req) 0%float = true)
      then r = (HTTP.mkResponse 400
                  (HTTP.PError "sku, price and quantity are required"), s)
      else
        ∃ cart line,
          r.1 = HTTP.mkResponse 201 (HTTP.PCart cart) ∧
          cart_of r.2 userID = cart ∧
          Cart.Items cart !! HTTP.reqSKU req = Some line ∧
          CartItem.Name line = HTTP.reqName req ∧
          CartItem.Price line = HTTP.reqPrice req
  end.
Proof.
  cbv zeta. unfold HTTP.handleAddItem. destruct decoded as [req|]; [|done].
  destruct (String.eqb_spec (HTTP.reqSKU req) "") as [Hs|Hs]; simpl.
  { rewrite decide_True by auto. done. }
  destruct (Z.leb_spec (HTTP.reqQuantity req) 0) as [Hq|Hq]; simpl.
  { rewrite decide_True by auto. done. }
  destruct (PrimFloat.leb (HTTP.reqPrice req) 0) eqn:Hp.
  { rewrite decide_True by auto. done. }
  rewrite decide_False by (intros [?|[?|?]]; [done|lia|done]).
  set (item := CartItem.mk _ _ _ _).
  pose proof (AddItem_cart_of userID item s) as Hc.
  pose proof (AddItem_cart userID item s) as Hcart.
  destruct (AddItem userID item s) as [cart s1]. simpl in *.
  exists cart. subst cart. eexists. split; [done|]. split; [done|].
  rewrite Hcart. simpl. rewrite lookup_insert_eq. split; [reflexivity|].
  by destruct (Cart.Items (cart_of s userID) !! HTTP.reqSKU req).
Qed.

Lemma lines_valid_step req s :
  HTTP.lines_valid s → HTTP.lines_valid (HTTP.serve req s).2.
Proof.
  intros Hv. destruct req as [userID decoded|userID|env userID discountCode|env|]; simpl.
  - unfold HTTP.handleAddItem. destruct decoded as [req|]; [|done].
    destruct (String.eqb_spec (HTTP.reqSKU req) "") as [Hs|Hs]; simpl; [done|].
    destruct (Z.leb_spec (HTTP.reqQuantity req) 0) as [Hq|Hq]; simpl; [done|].
    destruct (PrimFloat.leb (HTTP.reqPrice req) 0) eqn:Hp; [done|].
    set (item := CartItem.mk _ _ _ _).
    pose proof (AddItem_cart_of userID item s) as Hc.
    pose proof (AddItem_cart userID item s) as Hcart.
    pose proof (AddItem_cart_of_other userID item s) as Hother.
    destruct (AddItem userID item s) as [cart s1]. simpl in *.
    intros userID' sku line. destruct (decide (userID' = userID)) as [->|Hne].
    + rewrite Hc, Hcart. simpl.
      destruct (decide (sku = HTTP.reqSKU req)) as [->|Hsku].
      * rewrite lookup_insert_eq. intros [= <-].
        destruct (Cart.Items (cart_of s userID) !! HTTP.reqSKU req) as [existing|] eqn:He;
          simpl; [|done].
        split; [|done]. by apply (Hv userID (HTTP.reqSKU req)).
      * rewrite lookup_insert_ne by done. apply Hv.
    + rewrite Hother by done. apply Hv.
  - unfold HTTP.handleViewCart, ViewCart.
    pose proof (getOrCreateCart_cart_of userID s) as Hc.
    destruct (getOrCreateCart userID s) as [cart s1]. simpl in *.
    intros userID' sku line. rewrite Hc. apply Hv.
  - unfold HTTP.handleCheckout.
    destruct (Checkout env userID discountCode s) as [[o|e] s'] eqn:Hck; simpl.
    + intros userID' sku line. rewrite (Checkout_ok_cart_of _ _ _ _ _ _ userID' Hck).
      case_decide; [|apply Hv]. simpl. by rewrite lookup_empty.
    + intros userID' sku line. rewrite (Checkout_err_cart_of _ _ _ _ _ _ userID' Hck).
      apply Hv.
  - unfold HTTP.handleGenerateDiscount.
    destruct (GenerateDiscount env s) as [[code|e] s'] eqn:Hgen; simpl.
    + revert Hgen. unfold GenerateDiscount. case_match; [done|].
      by intros [= _ <-].
    + by apply GenerateDiscount_errors in Hgen as [_ ->].
  - done.
Qed.

(** X22. Whatever requests the handlers serve on a new store, every line
    of every cart has a non-empty sku and a price that is not [<= 0]: the
    check of [handleAddItem] covers what [AddItem] leaves unchecked. *)
Theorem served_lines_valid nthOrder reqs :
  HTTP.lines_valid (HTTP.serve_all reqs (NewMemoryStore nthOrder)).
Proof.
  assert (Hall : ∀ s, HTTP.lines_valid s → HTTP.lines_valid (HTTP.serve_all reqs s)).
  { induction reqs as [|req reqs IH]; intros s Hv; [done|].
    simpl. by apply IH, lines_valid_step. }
  apply Hall. intros userID sku line. unfold cart_of. simpl.
  by rewrite lookup_empty.
Qed.

(** X23. The threshold [main] configures is positive, so [NewMemoryStore]
    keeps it and its own default of 5 is not used: the store counts by the
    int read off the environment when there is a positive one, and by 3
    otherwise. *)
Theorem main_threshold Atoi fromEnv :
  let nthOrder := main_nthOrder Atoi fromEnv in
  0 < nthOrder ∧
  nthOrderThreshold (NewMemoryStore nthOrder) = nthOrder ∧
  nextEligibleOrder (NewMemoryStore nthOrder) = nthOrder ∧
  (nthOrder = 3 ∨ (fromEnv ≠ "" ∧ Atoi fromEnv = Some nthOrder)) ∧
  (fromEnv = "" → nthOrder = 3) ∧
  (∀ v, fromEnv ≠ "" → Atoi fromEnv = Some v → 0 < v → nthOrder = v).
Proof.
  cbv zeta. unfold main_nthOrder, NewMemoryStore.
  destruct (String.eqb_spec fromEnv "") as [->|Hne]; simpl.
  { repeat split; try done; auto. }
  destruct (Atoi fromEnv) as [v|]; simpl.
  - destruct (Z.gtb_spec v 0) as [Hv|Hv]; simpl.
    + destruct (Z.leb_spec v 0); [lia|]. simpl.
      repeat split; try done; [auto|]. by intros ? _ [= <-] _.
    + repeat split; try done; [auto|]. intros ? _ [= <-] ?. lia.
  - repeat split; try done; auto.
Qed.
